(** * ccusage-monitor: the usage-projection engine

    A shallow embedding of [src/core.ts] (burn rate, reset schedule, token
    limit), of the date module it is built on ([datetime.ts]) and of the
    body of the polling loop of [src/mod.ts], followed by the properties
    checked against them.

    Conventions of the embedding.
    - A [Date] is its time value: milliseconds since the epoch, as [Z].
      Invalid dates never flow through the program, since [fromISO] throws
      on them and the clock always yields a valid one.
    - JavaScript numbers that hold token counts are naturals; the numbers
      computed from them (durations in minutes, burn rate) are exact
      rationals [Q], so rounding of doubles is not represented.
    - The host (its zone database, its local zone, its date parser) is a
      record [Host]; a zone is a fixed offset from UTC, so daylight-saving
      transitions are not represented, and hours are read on the 0 to 23
      cycle.
    - Exceptions are an error monad [result]. *)

From Stdlib Require Import ZArith QArith Qround List Ascii String Bool Lia Sorted.
From Stdlib Require Import DecimalString DecimalZ Permutation.
Import ListNotations.

Local Open Scope string_scope.
Local Open Scope list_scope.
Local Open Scope Z_scope.

(** ** Exceptions *)

Inductive exn : Type :=
| InvalidISO (isoString : string)   (* Error("Invalid ISO string: ...") *)
| RangeError (timeZone : string).   (* thrown by Intl.DateTimeFormat *)

Inductive result (A : Type) : Type :=
| Ok (a : A)
| Throw (e : exn).

Arguments Ok {A} a.
Arguments Throw {A} e.

Definition bind {A B : Type} (m : result A) (k : A -> result B) : result B :=
  match m with
  | Ok a => k a
  | Throw e => Throw e
  end.

Definition try_catch {A : Type} (body : result A) (handler : exn -> result A)
  : result A :=
  match body with
  | Ok a => Ok a
  | Throw e => handler e
  end.

Declare Scope result_scope.
Delimit Scope result_scope with result.
Notation "x <- m ;; k" := (bind m (fun x => k))
  (at level 61, m at next level, right associativity) : result_scope.
Local Open Scope result_scope.

Definition isOk {A : Type} (m : result A) : bool :=
  match m with Ok _ => true | Throw _ => false end.

(** ** Truthiness of optional fields *)

(** [!s] for [s : string | undefined]: absent and empty strings are falsy. *)
Definition truthyStr (s : option string) : option string :=
  match s with
  | Some EmptyString => None
  | Some str => Some str
  | None => None
  end.

(** [b] in a condition, for [b : boolean | undefined]. *)
Definition truthy (b : option bool) : bool :=
  match b with Some true => true | _ => false end.

(** [n || 0] for [n : number | undefined] holding a token count. *)
Definition orZero (n : option N) : N :=
  match n with Some k => k | None => 0%N end.

(** ** The host platform *)

Record Host : Type := mkHost {
  sysZone : string;                 (* Intl.DateTimeFormat().resolvedOptions().timeZone *)
  sysOffset : Z;                    (* minutes east of UTC of the local zone *)
  zones : string -> option Z;       (* known zone identifiers and their offsets *)
  Date_parse : string -> option Z   (* new Date(s).getTime(); None is NaN *)
}.

Definition msPerSecond : Z := 1000.
Definition msPerMinute : Z := 60000.
Definition msPerHour : Z := 3600000.
Definition msPerDay : Z := 86400000.

(** ECMAScript time-value arithmetic (all divisions are floors). *)
Definition Day (t : Z) : Z := t / msPerDay.
Definition TimeWithinDay (t : Z) : Z := t mod msPerDay.
Definition HourFromTime (t : Z) : Z := (t / msPerHour) mod 24.
Definition MinFromTime (t : Z) : Z := (t / msPerMinute) mod 60.
Definition SecFromTime (t : Z) : Z := (t / msPerSecond) mod 60.
Definition msFromTime (t : Z) : Z := t mod msPerSecond.

(** ToIntegerOrInfinity on a finite number: truncation toward zero. *)
Definition ToInteger (q : Q) : Z := Z.quot (Qnum q) (Zpos (Qden q)).

Definition MakeTime (hour min sec ms : Q) : Z :=
  ToInteger hour * msPerHour + ToInteger min * msPerMinute
  + ToInteger sec * msPerSecond + ToInteger ms.

Definition MakeDate (day time : Z) : Z := day * msPerDay + time.

(** Day of the month (1..31) of a day number, by the civil-calendar
    computation on 400-year eras starting on 1 March. *)
Definition DateFromDay (day : Z) : Z :=
  let z := day + 719468 in
  let doe := z mod 146097 in
  let yoe := (doe - doe / 1460 + doe / 36524 - doe / 146096) / 365 in
  let doy := doe - (365 * yoe + yoe / 4 - yoe / 100) in
  let mp := (5 * doy + 2) / 153 in
  doy - (153 * mp + 2) / 5 + 1.

Definition DateFromTime (t : Z) : Z := DateFromDay (Day t).

(** MakeDay(YearFromTime(t), MonthFromTime(t), dt): the day number of the
    first of [t]'s month, plus [dt - 1]. *)
Definition MakeDayInMonthOf (t : Z) (dt : Q) : Z :=
  (Day t - DateFromTime t + 1) + ToInteger dt - 1.

(** ** datetime.ts, types *)

Record DateTime : Type := mkDateTime {
  date : Z;
  zoneName : option string
}.

Record Duration : Type := mkDuration { minutes : Q }.

(** The argument of [plus] and [minus]: [{ minutes?, days?, hours? }]. *)
Record Span : Type := mkSpan {
  spanMinutes : option Q;
  spanHours : option Q;
  spanDays : option Q
}.

Inductive DiffUnit : Type := unit_minutes | unit_days.

(** [n] in a condition, for [n : number | undefined]: zero is falsy. *)
Definition truthyNum (n : option Q) : option Q :=
  match n with
  | Some q => if Qeq_bool q 0 then None else Some q
  | None => None
  end.

Definition isDigit (c : ascii) : bool :=
  let n := nat_of_ascii c in (48 <=? n)%nat && (n <=? 57)%nat.

(** [isoString.match(/([+-]\d{2}:\d{2}|Z)$/)], as a boolean. *)
Definition tzMatch (isoString : string) : bool :=
  match rev (list_ascii_of_string isoString) with
  | c :: rest =>
      if Ascii.eqb c "Z" then true
      else
        match rest with
        | m1 :: colon :: h2 :: h1 :: sign :: _ =>
            isDigit c && isDigit m1 && Ascii.eqb colon ":" && isDigit h2
            && isDigit h1 && (Ascii.eqb sign "+" || Ascii.eqb sign "-")
        | _ => false
        end
  | [] => false
  end.

(** ** types.ts *)

Record CcusageBlock : Type := mkBlock {
  startTime : option string;
  actualEndTime : option string;
  totalTokens : option N;
  isActive : option bool;
  isGap : option bool
}.

Record CcusageData : Type := mkData { blocks : list CcusageBlock }.

(** The union ["pro" | "max5" | "max20" | "custom_max"]; [unknown_plan]
    stands for a run-time string outside the union that names no property
    of the table of limits. *)
Inductive PlanType : Type := pro | max5 | max20 | custom_max | unknown_plan.

Record MonitorOptions : Type := mkOptions {
  plan : PlanType;
  resetHour : option Z;
  timezone : string
}.

(** [a > b] on numbers. *)
Definition Qgtb (a b : Q) : bool := negb (Qle_bool a b).

Definition optStrEqb (a b : option string) : bool :=
  match a, b with
  | Some x, Some y => String.eqb x y
  | None, None => true
  | _, _ => false
  end.

Definition PlanType_eqb (a b : PlanType) : bool :=
  match a, b with
  | pro, pro | max5, max5 | max20, max20 | custom_max, custom_max
  | unknown_plan, unknown_plan => true
  | _, _ => false
  end.

(** ** mod.ts, types of the model of a tick *)

(** What one iteration of the loop reads from outside: the result of
    [runCcusage()] and the reading of the clock that ends up in
    [currentTime]. *)
Record TickInput : Type := mkTick {
  fetched : option CcusageData;
  clock : Z
}.

(** The values one iteration computes before it prints them. *)
Record Snapshot : Type := mkSnapshot {
  tokensUsed : Z;
  tokenLimitShown : Z;
  usagePercentage : Q;
  tokensLeft : Z;
  elapsedMinutes : Q;
  currentTime : DateTime;
  burnRate : Q;
  resetTime : DateTime;
  predictedEndTime : DateTime;
  showSwitchNotification : bool;
  showExceedNotification : bool;
  runsOutBeforeReset : bool
}.

Inductive TickOutcome : Type :=
| FailedToGetData
| NoActiveSession
| Displayed (s : Snapshot).

Section Platform.

Variable host : Host.

(** Offset of a zone identifier, [None] when the identifier is rejected;
    the host's own zone is always accepted. *)
Definition zoneOffset (timeZone : string) : option Z :=
  if String.eqb timeZone (sysZone host) then Some (sysOffset host)
  else zones host timeZone.

(** [new Intl.DateTimeFormat("en-US", { timeZone })] *)
Definition Intl_DateTimeFormat (timeZone : string) : result Z :=
  match zoneOffset timeZone with
  | Some off => Ok off
  | None => Throw (RangeError timeZone)
  end.

Definition LocalTime (t : Z) : Z := t + sysOffset host * msPerMinute.
Definition UTC (t : Z) : Z := t - sysOffset host * msPerMinute.

(** Methods of [Date], on the time value. *)
Definition Date_getHours (d : Z) : Z := HourFromTime (LocalTime d).
Definition Date_getMinutes (d : Z) : Z := MinFromTime (LocalTime d).
Definition Date_getSeconds (d : Z) : Z := SecFromTime (LocalTime d).
Definition Date_getDate (d : Z) : Z := DateFromTime (LocalTime d).

Definition Date_setHours (d : Z) (hour : Q) : Z :=
  let t := LocalTime d in
  UTC (MakeDate (Day t)
         (MakeTime hour (inject_Z (MinFromTime t)) (inject_Z (SecFromTime t))
            (inject_Z (msFromTime t)))).

Definition Date_setHours4 (d : Z) (hour min sec ms : Q) : Z :=
  let t := LocalTime d in
  UTC (MakeDate (Day t) (MakeTime hour min sec ms)).

Definition Date_setMinutes (d : Z) (min : Q) : Z :=
  let t := LocalTime d in
  UTC (MakeDate (Day t)
         (MakeTime (inject_Z (HourFromTime t)) min (inject_Z (SecFromTime t))
            (inject_Z (msFromTime t)))).

Definition Date_setDate (d : Z) (dt : Q) : Z :=
  let t := LocalTime d in
  UTC (MakeDate (MakeDayInMonthOf t dt) (TimeWithinDay t)).

(** ** datetime.ts, functions *)

(** [now()], given the reading of the clock. *)
Definition now (clock : Z) : DateTime :=
  {| date := clock; zoneName := Some (sysZone host) |}.

Definition fromISO (isoString : string) : result DateTime :=
  match Date_parse host isoString with
  | None => Throw (InvalidISO isoString)
  | Some d =>
      let zoneName := if tzMatch isoString then Some (sysZone host) else None in
      Ok {| date := d; zoneName := zoneName |}
  end.

Definition setZone (dt : DateTime) (timezone : string) : result DateTime :=
  try_catch
    (_ <- Intl_DateTimeFormat timezone ;;
     Ok {| date := date dt; zoneName := Some timezone |})
    (fun _ => Ok dt).

Definition diff (dt1 dt2 : DateTime) (unit : DiffUnit) : Duration :=
  let diffMs := date dt1 - date dt2 in
  let minutes := Qmake diffMs 60000 in
  match unit with
  | unit_days => {| minutes := minutes |}
  | unit_minutes => {| minutes := minutes |}
  end.

Definition plus (dt : DateTime) (duration : Span) : DateTime :=
  let newDate := date dt in
  let newDate :=
    match truthyNum (spanMinutes duration) with
    | Some m =>
        Date_setMinutes newDate (inject_Z (Date_getMinutes newDate) + m)
    | None => newDate
    end in
  let newDate :=
    match truthyNum (spanHours duration) with
    | Some h => Date_setHours newDate (inject_Z (Date_getHours newDate) + h)
    | None => newDate
    end in
  let newDate :=
    match truthyNum (spanDays duration) with
    | Some d => Date_setDate newDate (inject_Z (Date_getDate newDate) + d)
    | None => newDate
    end in
  {| date := newDate; zoneName := zoneName dt |}.

Definition minus (dt : DateTime) (duration : Span) : DateTime :=
  let negate (n : option Q) :=
    match truthyNum n with Some q => Some (- q)%Q | None => None end in
  plus dt {| spanMinutes := negate (spanMinutes duration);
             spanHours := negate (spanHours duration);
             spanDays := negate (spanDays duration) |}.

(** [startOf(dt, "day")] *)
Definition startOf (dt : DateTime) : DateTime :=
  {| date := Date_setHours4 (date dt) 0 0 0 0; zoneName := zoneName dt |}.

(** [set(dt, { hour?, minute? })] *)
Definition set (dt : DateTime) (hour minute : option Q) : DateTime :=
  let newDate := date dt in
  let newDate :=
    match hour with Some h => Date_setHours newDate h | None => newDate end in
  let newDate :=
    match minute with
    | Some m => Date_setMinutes newDate m
    | None => newDate
    end in
  {| date := newDate; zoneName := zoneName dt |}.

(** [parseInt] of the hour (0 to 23), formatted in the zone of [dt] when
    it has one; the formatter rejects a zone it does not know. *)
Definition getHour (dt : DateTime) : result Z :=
  match truthyStr (zoneName dt) with
  | Some z =>
      off <- Intl_DateTimeFormat z ;;
      Ok (HourFromTime (date dt + off * msPerMinute))
  | None => Ok (Date_getHours (date dt))
  end.

Definition getMinute (dt : DateTime) : result Z :=
  match truthyStr (zoneName dt) with
  | Some z =>
      off <- Intl_DateTimeFormat z ;;
      Ok (MinFromTime (date dt + off * msPerMinute))
  | None => Ok (Date_getMinutes (date dt))
  end.

Definition getZoneName (dt : DateTime) : option string := zoneName dt.

Definition valueOf (dt : DateTime) : Z := date dt.

(** ** core.ts *)

(** One iteration of the loop of [calculateHourlyBurnRate]: the value of
    the running total (the source's local [totalTokens]) after [block];
    [continue] leaves it unchanged. *)
Definition burnRateIteration (oneHourAgo currentTime : DateTime)
    (block : CcusageBlock) (tokensSoFar : Q) : result Q :=
  match truthyStr (startTime block) with
  | None => Ok tokensSoFar
  | Some startTimeStr =>
      start <- fromISO startTimeStr ;;
      if truthy (isGap block) then Ok tokensSoFar
      else
        sessionActualEnd <-
          (if truthy (isActive block) then Ok currentTime
           else
             match truthyStr (actualEndTime block) with
             | Some actualEndStr => fromISO actualEndStr
             | None => Ok currentTime
             end) ;;
        if valueOf sessionActualEnd <? valueOf oneHourAgo then Ok tokensSoFar
        else
          let sessionStartInHour :=
            if valueOf start >? valueOf oneHourAgo then start
            else oneHourAgo in
          let sessionEndInHour :=
            if valueOf sessionActualEnd <? valueOf currentTime
            then sessionActualEnd else currentTime in
          if valueOf sessionEndInHour <=? valueOf sessionStartInHour
          then Ok tokensSoFar
          else
            let totalSessionDuration :=
              minutes (diff sessionActualEnd start unit_minutes) in
            let hourDuration :=
              minutes (diff sessionEndInHour sessionStartInHour unit_minutes) in
            if Qgtb totalSessionDuration 0 && Qgtb hourDuration 0 then
              let sessionTokens := inject_Z (Z.of_N (orZero (totalTokens block))) in
              let tokensInHour :=
                (sessionTokens * (hourDuration / totalSessionDuration))%Q in
              Ok (tokensSoFar + tokensInHour)%Q
            else Ok tokensSoFar
  end.

Fixpoint burnRateLoop (oneHourAgo currentTime : DateTime)
    (blocks : list CcusageBlock) (tokensSoFar : Q) : result Q :=
  match blocks with
  | [] => Ok tokensSoFar
  | block :: rest =>
      tokensSoFar' <- burnRateIteration oneHourAgo currentTime block tokensSoFar ;;
      burnRateLoop oneHourAgo currentTime rest tokensSoFar'
  end.

Definition calculateHourlyBurnRate (blocks : list CcusageBlock)
    (currentTime : DateTime) : result Q :=
  match blocks with
  | [] => Ok 0%Q
  | _ =>
      let oneHourAgo :=
        minus currentTime
          {| spanMinutes := None; spanHours := Some 1%Q; spanDays := None |} in
      tokensSoFar <- burnRateLoop oneHourAgo currentTime blocks 0%Q ;;
      Ok (if Qgtb tokensSoFar 0 then tokensSoFar / 60 else 0)%Q
  end.

Definition defaultResetHours : list Z := [4; 9; 14; 18; 23].

(** Lines 139-150 of [getNextResetTime]: the instant projected into the
    requested zone. *)
Definition getNextResetTime_targetTime (currentTime : DateTime)
    (timezoneStr : option string) : result DateTime :=
  let timezone :=
    match truthyStr timezoneStr with
    | Some tz => tz
    | None => sysZone host
    end in
  try_catch (setZone currentTime timezone)
    (fun _ => setZone currentTime "UTC").

(** The [for] loop of [getNextResetTime]: the first hour of the schedule
    that is still ahead, if any. *)
Definition getNextResetTime_nextResetHour (resetHours : list Z)
    (currentHour currentMinute : Z) : option Z :=
  find (fun hour =>
          (currentHour <? hour)
          || ((currentHour =? hour) && (currentMinute =? 0)))
       resetHours.

Definition getNextResetTime (currentTime : DateTime)
    (customResetHour : option Z) (timezoneStr : option string)
  : result DateTime :=
  targetTime <- getNextResetTime_targetTime currentTime timezoneStr ;;
  let resetHours :=
    match customResetHour with
    | Some h => [h]
    | None => defaultResetHours
    end in
  currentHour <- getHour targetTime ;;
  currentMinute <- getMinute targetTime ;;
  let nextReset :=
    match getNextResetTime_nextResetHour resetHours currentHour currentMinute with
    | None =>
        let nextResetHour := hd 0 resetHours in
        set (startOf
               (plus targetTime
                  {| spanMinutes := None; spanHours := None;
                     spanDays := Some 1%Q |}))
            (Some (inject_Z nextResetHour)) None
    | Some nextResetHour =>
        set (startOf targetTime) (Some (inject_Z nextResetHour)) None
    end in
  let currentZone := getZoneName currentTime in
  let targetZone := getZoneName targetTime in
  match truthyStr currentZone with
  | Some zone =>
      if negb (optStrEqb currentZone targetZone) then setZone nextReset zone
      else Ok nextReset
  | None => Ok nextReset
  end.

(** The record [limits] of [getTokenLimit]. *)
Definition limits (plan : PlanType) : option Z :=
  match plan with
  | pro => Some 7000
  | max5 => Some 35000
  | max20 => Some 140000
  | custom_max => Some 7000
  | unknown_plan => None
  end.

Definition getTokenLimit (plan : PlanType)
    (blocks : option (list CcusageBlock)) : Z :=
  match plan, blocks with
  | custom_max, Some blocks =>
      let maxTokens :=
        fold_left
          (fun maxTokens block =>
             if negb (truthy (isGap block)) && negb (truthy (isActive block))
             then
               let tokens := Z.of_N (orZero (totalTokens block)) in
               if tokens >? maxTokens then tokens else maxTokens
             else maxTokens)
          blocks 0 in
      if maxTokens >? 0 then maxTokens else 7000
  | _, _ =>
      match limits plan with
      | Some 0 | None => 7000
      | Some limit => limit
      end
  end.

(** ** mod.ts *)

(** Lines 49-59 of [main]: the limit the loop starts from. *)
Definition main_initialTokenLimit (monitorOptions : MonitorOptions)
    (initialData : option CcusageData) : Z :=
  if PlanType_eqb (plan monitorOptions) custom_max then
    match initialData with
    | Some data => getTokenLimit (plan monitorOptions) (Some (blocks data))
    | None => getTokenLimit pro None
    end
  else getTokenLimit (plan monitorOptions) None.

(** Lines 100-106 of [main]: the only assignment to [tokenLimit] in the
    loop. *)
Definition main_switchLimit (monitorOptions : MonitorOptions)
    (tokenLimit tokensUsed : Z) (blocks : list CcusageBlock) : Z :=
  if (tokensUsed >? tokenLimit) && PlanType_eqb (plan monitorOptions) pro
  then
    let newLimit := getTokenLimit custom_max (Some blocks) in
    if newLimit >? tokenLimit then newLimit else tokenLimit
  else tokenLimit.

(** Lines 141-150 of [main]. *)
Definition main_predictedEndTime (currentTime resetTime : DateTime)
    (burnRate : Q) (tokensLeft : Z) : DateTime :=
  if Qgtb burnRate 0 && (tokensLeft >? 0) then
    let minutesToDepletion := (inject_Z tokensLeft / burnRate)%Q in
    plus currentTime
      {| spanMinutes := Some minutesToDepletion; spanHours := None;
         spanDays := None |}
  else resetTime.

(** The body of the [while (true)] loop of [main], up to the values it
    prints: the new value of [tokenLimit], and what the iteration shows or
    the exception that ends the program. *)
Definition main_tick (monitorOptions : MonitorOptions) (tokenLimit : Z)
    (input : TickInput) : Z * result TickOutcome :=
  match fetched input with
  | None => (tokenLimit, Ok FailedToGetData)
  | Some data =>
      match find (fun block => truthy (isActive block)) (blocks data) with
      | None => (tokenLimit, Ok NoActiveSession)
      | Some activeBlock =>
          let tokensUsed := Z.of_N (orZero (totalTokens activeBlock)) in
          let tokenLimit :=
            main_switchLimit monitorOptions tokenLimit tokensUsed (blocks data) in
          let usagePercentage :=
            if tokenLimit >? 0
            then (inject_Z tokensUsed / inject_Z tokenLimit * 100)%Q
            else 0%Q in
          let tokensLeft := tokenLimit - tokensUsed in
          (tokenLimit,
           timing <-
             match truthyStr (startTime activeBlock) with
             | Some startTimeStr =>
                 start <- fromISO startTimeStr ;;
                 currentTime <-
                   match truthyStr (getZoneName start) with
                   | Some zoneName => setZone (now (clock input)) zoneName
                   | None => Ok (now (clock input))
                   end ;;
                 Ok (minutes (diff currentTime start unit_minutes), currentTime)
             | None => Ok (0%Q, now (clock input))
             end ;;
           let elapsedMinutes := fst timing in
           let currentTime := snd timing in
           burnRate <- calculateHourlyBurnRate (blocks data) currentTime ;;
           resetTime <-
             getNextResetTime currentTime (resetHour monitorOptions)
               (Some (timezone monitorOptions)) ;;
           let predictedEndTime :=
             main_predictedEndTime currentTime resetTime burnRate tokensLeft in
           let showSwitchNotification :=
             (tokensUsed >? 7000)
             && PlanType_eqb (plan monitorOptions) pro
             && (tokenLimit >? 7000) in
           let showExceedNotification := tokensUsed >? tokenLimit in
           Ok (Displayed
                 {| tokensUsed := tokensUsed;
                    tokenLimitShown := tokenLimit;
                    usagePercentage := usagePercentage;
                    tokensLeft := tokensLeft;
                    elapsedMinutes := elapsedMinutes;
                    currentTime := currentTime;
                    burnRate := burnRate;
                    resetTime := resetTime;
                    predictedEndTime := predictedEndTime;
                    showSwitchNotification := showSwitchNotification;
                    showExceedNotification := showExceedNotification;
                    runsOutBeforeReset :=
                      valueOf predictedEndTime <? valueOf resetTime |}))
      end
  end.

(** The loop itself on a finite sequence of inputs: the value of
    [tokenLimit] after each iteration, up to and including the one that
    throws, if any. *)
Fixpoint main_loop (monitorOptions : MonitorOptions) (tokenLimit : Z)
    (inputs : list TickInput) : list Z :=
  match inputs with
  | [] => []
  | input :: rest =>
      let '(tokenLimit', outcome) := main_tick monitorOptions tokenLimit input in
      tokenLimit' ::
        (if isOk outcome then main_loop monitorOptions tokenLimit' rest else [])
  end.

(** ** The burn rate as the specification words it

    A block contributes when it is not a gap, its [startTime] parses, and
    its effective end (the instant [now] if it is active; else its
    [actualEndTime] if present, else [now]) is not earlier than [now] minus
    60 minutes.  Its contribution is [totalTokens] times the share of the
    session that overlaps the trailing hour; the rate is the sum of the
    contributions over 60. *)

Definition effectiveEnd_spec (nowMs : Z) (b : CcusageBlock) : option Z :=
  if truthy (isActive b) then Some nowMs
  else
    match truthyStr (actualEndTime b) with
    | Some s => Date_parse host s
    | None => Some nowMs
    end.

Definition contribution_spec (nowMs : Z) (b : CcusageBlock) : Q :=
  if truthy (isGap b) then 0%Q
  else
    match truthyStr (startTime b) with
    | None => 0%Q
    | Some s =>
        match Date_parse host s, effectiveEnd_spec nowMs b with
        | Some start, Some effectiveEnd =>
            let windowStart := nowMs - 60 * msPerMinute in
            if effectiveEnd <? windowStart then 0%Q
            else
              let overlapStart := Z.max start windowStart in
              let overlapEnd := Z.min effectiveEnd nowMs in
              let overlapMs := overlapEnd - overlapStart in
              let sessionMs := effectiveEnd - start in
              if (overlapMs <=? 0) || (sessionMs <=? 0) then 0%Q
              else
                (inject_Z (Z.of_N (orZero (totalTokens b)))
                 * (Qmake overlapMs 60000 / Qmake sessionMs 60000))%Q
        | _, _ => 0%Q
        end
    end.


(** The timestamps of a block that [calculateHourlyBurnRate] hands to
    [fromISO] all parse: the [startTime] when present and, for a block that
    is neither a gap nor active, the [actualEndTime] when present. *)
Definition parsesCleanly (b : CcusageBlock) : bool :=
  match truthyStr (startTime b) with
  | None => true
  | Some s =>
      match Date_parse host s with
      | None => false
      | Some _ =>
          if truthy (isGap b) || truthy (isActive b) then true
          else
            match truthyStr (actualEndTime b) with
            | None => true
            | Some e =>
                match Date_parse host e with Some _ => true | None => false end
            end
      end
  end.

End Platform.

(** ** The custom limit as the specification words it *)

(** Token counts of the completed sessions: blocks with gap = false and
    active = false. *)
Definition completedTokens (blocks : list CcusageBlock) : list Z :=
  map (fun b => Z.of_N (orZero (totalTokens b)))
    (filter (fun b => negb (truthy (isGap b)) && negb (truthy (isActive b)))
       blocks).

(** Maximum of a list of counts, 0 for the empty list. *)
Definition maxCount (counts : list Z) : Z := fold_right Z.max 0 counts.

(** ** Sample hosts and inputs *)

Definition sampleZones (timeZone : string) : option Z :=
  if String.eqb timeZone "UTC" then Some 0
  else if String.eqb timeZone "Asia/Tokyo" then Some 540
  else if String.eqb timeZone "Asia/Kolkata" then Some 330
  else if String.eqb timeZone "America/Phoenix" then Some (-420)
  else None.

(** Instants of 1 January 2024 (UTC), in milliseconds since the epoch. *)
Definition t_2024_01_01 (h m s : Z) : Z :=
  1704067200000 + h * msPerHour + m * msPerMinute + s * msPerSecond.

Definition sampleParse (isoString : string) : option Z :=
  if String.eqb isoString "2024-01-01T08:00:00.000Z" then Some (t_2024_01_01 8 0 0)
  else if String.eqb isoString "2024-01-01T09:00:00.000Z" then Some (t_2024_01_01 9 0 0)
  else if String.eqb isoString "2024-01-01T09:30:00.000Z" then Some (t_2024_01_01 9 30 0)
  else if String.eqb isoString "2024-01-01T10:00:00.000Z" then Some (t_2024_01_01 10 0 0)
  else None.

Definition utcHost : Host :=
  {| sysZone := "UTC"; sysOffset := 0; zones := sampleZones;
     Date_parse := sampleParse |}.

Definition tokyoHost : Host :=
  {| sysZone := "Asia/Tokyo"; sysOffset := 540; zones := sampleZones;
     Date_parse := sampleParse |}.

(** Sample blocks.  [notADate] is rejected by [sampleParse]. *)
Definition notADate : string := "not-a-date".

Definition activeSince0930 : CcusageBlock :=
  {| startTime := Some "2024-01-01T09:30:00.000Z"; actualEndTime := None;
     totalTokens := Some 3000%N; isActive := Some true; isGap := Some false |}.

Definition completed0800to0930 : CcusageBlock :=
  {| startTime := Some "2024-01-01T08:00:00.000Z";
     actualEndTime := Some "2024-01-01T09:30:00.000Z";
     totalTokens := Some 9000%N; isActive := Some false; isGap := Some false |}.

Definition withoutStart : CcusageBlock :=
  {| startTime := None; actualEndTime := None;
     totalTokens := Some 500%N; isActive := Some false; isGap := Some false |}.

Definition badStart : CcusageBlock :=
  {| startTime := Some notADate; actualEndTime := None;
     totalTokens := Some 1000%N; isActive := Some false; isGap := Some false |}.

Definition badStartGap : CcusageBlock :=
  {| startTime := Some notADate; actualEndTime := None;
     totalTokens := None; isActive := Some false; isGap := Some true |}.

(** Ten o'clock (UTC) on 1 January 2024, as [now()] gives it on [utcHost]. *)
Definition tenOClock : DateTime := now utcHost (t_2024_01_01 10 0 0).

(** A [DateTime] whose zone, when it has one, is known to the host; the
    module's own constructors ([now], [fromISO], [setZone]) build no
    other. *)
Definition zoneKnown (host : Host) (dt : DateTime) : bool :=
  match truthyStr (zoneName dt) with
  | Some z => match zoneOffset host z with Some _ => true | None => false end
  | None => true
  end.

Definition proOptions : MonitorOptions :=
  {| plan := pro; resetHour := None; timezone := "UTC" |}.

Definition active8000 : CcusageBlock :=
  {| startTime := Some "2024-01-01T09:30:00.000Z"; actualEndTime := None;
     totalTokens := Some 8000%N; isActive := Some true; isGap := Some false |}.


Definition completed50000 : CcusageBlock :=
  {| startTime := Some "2024-01-01T08:00:00.000Z";
     actualEndTime := Some "2024-01-01T09:00:00.000Z";
     totalTokens := Some 50000%N; isActive := Some false; isGap := Some false |}.

Definition completed7500 : CcusageBlock :=
  {| startTime := Some "2024-01-01T08:00:00.000Z";
     actualEndTime := Some "2024-01-01T09:00:00.000Z";
     totalTokens := Some 7500%N; isActive := Some false; isGap := Some false |}.

(** What an iteration reads at ten o'clock when [ccusage] reports
    [reported]. *)
Definition tickAtTen (reported : list CcusageBlock) : TickInput :=
  {| fetched := Some {| blocks := reported |}; clock := t_2024_01_01 10 0 0 |}.

(** An identifier that [sampleZones] does not know. *)
Definition unknownZone : string := "Mars/Olympus".

(** * The rest of the code

    The functions of [datetime.ts] and [core.ts] that the first part
    leaves out, the helpers of [utils.ts] that the loop calls with the
    values it computes, and the reading of the command line
    ([args.ts]) that fixes the options of the run. *)

(** ** Exceptions of these functions *)

Inductive thrown : Type :=
| Raised (e : exn)                    (* the exceptions of the first part *)
| NoDatesProvided                     (* Error("No dates provided") *)
| UnsupportedFormat (format : string) (* Error("Unsupported format: ...") *)
| InvalidCount (count : Z).           (* RangeError of String.prototype.repeat *)

Inductive completion (A : Type) : Type :=
| Normal (a : A)
| Abrupt (t : thrown).

Arguments Normal {A} a.
Arguments Abrupt {A} t.

Definition lift {A : Type} (r : result A) : completion A :=
  match r with
  | Ok a => Normal a
  | Throw e => Abrupt (Raised e)
  end.

Definition andThen {A B : Type} (m : completion A) (k : A -> completion B)
  : completion B :=
  match m with
  | Normal a => k a
  | Abrupt t => Abrupt t
  end.

Definition isNormal {A : Type} (m : completion A) : bool :=
  match m with Normal _ => true | Abrupt _ => false end.

(** ** Numbers and strings of the platform *)

(** [n.toString()] for an integer [n]. *)
Definition Number_toString (n : Z) : string :=
  NilZero.string_of_int (Z.to_int n).

(** The filler of [padStart]: the first [n] characters of [padString]
    repeated; [rest] is what is left of the copy being written. *)
Fixpoint padFiller (n : nat) (padString rest : string) : string :=
  match n with
  | O => EmptyString
  | S k =>
      match rest with
      | String c rest' => String c (padFiller k padString rest')
      | EmptyString =>
          match padString with
          | String c rest' => String c (padFiller k padString rest')
          | EmptyString => EmptyString
          end
      end
  end.

(** [s.padStart(targetLength, padString)] *)
Definition String_padStart (s : string) (targetLength : nat)
    (padString : string) : string :=
  (padFiller (targetLength - String.length s) padString padString ++ s)%string.

(** [s.repeat(count)] for an integer [count]. *)
Definition String_repeat (s : string) (count : Z) : completion string :=
  if count <? 0 then Abrupt (InvalidCount count)
  else Normal (String.concat EmptyString (List.repeat s (Z.to_nat count))).

(** [Math.round]: the nearest integer, halves upwards. *)
Definition Math_round (x : Q) : Z := Qfloor (x + (1 # 2)).

(** [a % b] on numbers: the remainder has the sign of [a]. *)
Definition Number_rem (a b : Q) : Q :=
  (a - b * inject_Z (ToInteger (a / b)))%Q.

(** [Math.min(a, b)] and [Math.max(a, b)]. *)
Definition Math_min (a b : Q) : Q := if Qle_bool a b then a else b.
Definition Math_max (a b : Q) : Q := if Qle_bool a b then b else a.

(** [a > b] for two [DateTime] objects.  Neither operand is a primitive:
    each is converted with [valueOf], which for a plain object returns
    the object itself, and then with [toString], which gives
    ["[object Object]"]; the comparison is between two equal strings. *)
Definition DateTime_gt (a b : DateTime) : bool :=
  negb (String.leb "[object Object]" "[object Object]").

(** ** types.ts: TokenUsage *)

Record TokenUsage : Type := mkUsage {
  totalTokensUsed : N;
  activeSessionTokens : N;
  completedSessionTokens : N;
  lastSessionTokens : N;
  averageTokensPerSession : Z
}.

(** The variables that the loop of [calculateTokenUsage] updates. *)
Record UsageState : Type := mkUsageState {
  st_totalTokensUsed : N;
  st_activeSessionTokens : N;
  st_completedSessionTokens : N;
  st_lastSessionTokens : N;
  st_sessionCount : N;
  st_lastSessionTime : option DateTime
}.

Section PlatformRest.

Variable host : Host.

(** ** datetime.ts, the remaining functions *)

Definition max (dates : list DateTime) : completion DateTime :=
  match dates with
  | [] => Abrupt NoDatesProvided
  | first :: rest =>
      Normal
        (fold_left
           (fun max current =>
              if date current >? date max then current else max)
           rest first)
  end.

Definition min (dates : list DateTime) : completion DateTime :=
  match dates with
  | [] => Abrupt NoDatesProvided
  | first :: rest =>
      Normal
        (fold_left
           (fun min current =>
              if date current <? date min then current else min)
           rest first)
  end.

(** The local function [pad] of [toFormat]. *)
Definition toFormat_pad (n : Z) : string :=
  String_padStart (Number_toString n) 2 "0".

Definition toFormat (dt : DateTime) (format : string) : completion string :=
  andThen (lift (getHour host dt)) (fun hours =>
  andThen (lift (getMinute host dt)) (fun minutes =>
  let seconds := Date_getSeconds host (date dt) in
  if String.eqb format "HH:mm" then
    Normal (toFormat_pad hours ++ ":" ++ toFormat_pad minutes)%string
  else if String.eqb format "HH:mm:ss" then
    Normal (toFormat_pad hours ++ ":" ++ toFormat_pad minutes ++ ":"
            ++ toFormat_pad seconds)%string
  else Abrupt (UnsupportedFormat format))).

Definition isAfter (a b : DateTime) : bool := valueOf a >? valueOf b.

Definition isBefore (a b : DateTime) : bool := valueOf a <? valueOf b.

(** ** core.ts: calculateTokenUsage *)

(** One iteration of the loop of [calculateTokenUsage]. *)
Definition tokenUsageIteration (block : CcusageBlock) (st : UsageState)
  : result UsageState :=
  if truthy (isGap block) then Ok st
  else
    let tokens := orZero (totalTokens block) in
    let totalTokensUsed := (st_totalTokensUsed st + tokens)%N in
    let activeSessionTokens :=
      if truthy (isActive block) then (st_activeSessionTokens st + tokens)%N
      else st_activeSessionTokens st in
    let completedSessionTokens :=
      if truthy (isActive block) then st_completedSessionTokens st
      else (st_completedSessionTokens st + tokens)%N in
    last <-
      match truthyStr (startTime block) with
      | Some startTimeStr =>
          start <- fromISO host startTimeStr ;;
          match st_lastSessionTime st with
          | None => Ok (Some start, tokens)
          | Some lastSessionTime =>
              if DateTime_gt start lastSessionTime
              then Ok (Some start, tokens)
              else Ok (st_lastSessionTime st, st_lastSessionTokens st)
          end
      | None => Ok (st_lastSessionTime st, st_lastSessionTokens st)
      end ;;
    Ok {| st_totalTokensUsed := totalTokensUsed;
          st_activeSessionTokens := activeSessionTokens;
          st_completedSessionTokens := completedSessionTokens;
          st_lastSessionTokens := snd last;
          st_sessionCount := (st_sessionCount st + 1)%N;
          st_lastSessionTime := fst last |}.

Fixpoint tokenUsageLoop (blocks : list CcusageBlock) (st : UsageState)
  : result UsageState :=
  match blocks with
  | [] => Ok st
  | block :: rest =>
      st' <- tokenUsageIteration block st ;;
      tokenUsageLoop rest st'
  end.

Definition calculateTokenUsage (blocks : list CcusageBlock)
  : result TokenUsage :=
  match blocks with
  | [] =>
      Ok {| totalTokensUsed := 0; activeSessionTokens := 0;
            completedSessionTokens := 0; lastSessionTokens := 0;
            averageTokensPerSession := 0 |}
  | _ =>
      st <-
        tokenUsageLoop blocks
          {| st_totalTokensUsed := 0; st_activeSessionTokens := 0;
             st_completedSessionTokens := 0; st_lastSessionTokens := 0;
             st_sessionCount := 0; st_lastSessionTime := None |} ;;
      let averageTokensPerSession :=
        if (0 <? st_sessionCount st)%N
        then
          Math_round (inject_Z (Z.of_N (st_totalTokensUsed st))
                      / inject_Z (Z.of_N (st_sessionCount st)))
        else 0 in
      Ok {| totalTokensUsed := st_totalTokensUsed st;
            activeSessionTokens := st_activeSessionTokens st;
            completedSessionTokens := st_completedSessionTokens st;
            lastSessionTokens := st_lastSessionTokens st;
            averageTokensPerSession := averageTokensPerSession |}
  end.

End PlatformRest.

(** ** utils.ts: what the loop draws from the values it computed

    The two bars and the label of the remaining time, before colouring;
    the colours, the frame around the bars and the percentage printed
    after the token bar are left out. *)

(** The cells of the bars: U+2588 (full block) and U+2591 (light shade),
    in UTF-8. *)
Definition fullCell : string :=
  String (ascii_of_nat 226) (String (ascii_of_nat 150)
    (String (ascii_of_nat 136) EmptyString)).

Definition shadeCell : string :=
  String (ascii_of_nat 226) (String (ascii_of_nat 150)
    (String (ascii_of_nat 145) EmptyString)).

(** [a < b] on numbers. *)
Definition Qltb (a b : Q) : bool := negb (Qle_bool b a).

Definition formatTime (minutes : Q) : string :=
  if Qltb minutes 60 then (Number_toString (Qfloor minutes) ++ "m")%string
  else
    let hours := Qfloor (minutes / 60) in
    let mins := Qfloor (Number_rem minutes 60) in
    if mins =? 0 then (Number_toString hours ++ "h")%string
    else
      (Number_toString hours ++ "h " ++ Number_toString mins ++ "m")%string.

Record TokenBar : Type := mkTokenBar {
  greenBar : string;
  tokenRedBar : string
}.

Record TimeBar : Type := mkTimeBar {
  blueBar : string;
  timeRedBar : string;
  remainingTime : string
}.

Definition createTokenProgressBar (percentage : Q) (width : Z)
  : completion TokenBar :=
  let clampedPercentage := Math_max 0 (Math_min 100 percentage) in
  let filled := Qfloor (inject_Z width * clampedPercentage / 100) in
  andThen (String_repeat fullCell filled) (fun greenBar =>
  andThen (String_repeat shadeCell (width - filled)) (fun redBar =>
  Normal {| greenBar := greenBar; tokenRedBar := redBar |})).

Definition createTimeProgressBar (elapsedMinutes totalMinutes : Q)
    (width : Z) : completion TimeBar :=
  let percentage :=
    if Qle_bool totalMinutes 0 then 0%Q
    else Math_min 100 (elapsedMinutes / totalMinutes * 100) in
  let filled := Qfloor (inject_Z width * percentage / 100) in
  andThen (String_repeat fullCell filled) (fun blueBar =>
  andThen (String_repeat shadeCell (width - filled)) (fun redBar =>
  let remainingTime :=
    formatTime (Math_max 0 (totalMinutes - elapsedMinutes)) in
  Normal {| blueBar := blueBar; timeRedBar := redBar;
            remainingTime := remainingTime |})).

(** Lines 156-169 of [main]: the two bars of an iteration, with the
    default width of 50 and the session length of 300 minutes. *)
Definition main_bars (s : Snapshot) : completion (TokenBar * TimeBar) :=
  andThen (createTokenProgressBar (usagePercentage s) 50) (fun tokenBar =>
  let sessionDuration := 300%Q in
  andThen (createTimeProgressBar (elapsedMinutes s) sessionDuration 50)
    (fun timeBar => Normal (tokenBar, timeBar))).

(** ** args.ts *)

Record ParsedArgs : Type := mkArgs {
  arg_plan : string;
  arg_resetHour : option Z;
  arg_timezone : string;
  arg_help : bool;
  arg_version : bool
}.

(** A computation that may end the process with [process.exit(code)]. *)
Inductive startup (A : Type) : Type :=
| Continue (a : A)
| Exit (code : Z).

Arguments Continue {A} a.
Arguments Exit {A} code.

(** [nextArg && !nextArg.startsWith("-")], with the value when it holds. *)
Definition flagValue (nextArg : option string) : option string :=
  match truthyStr nextArg with
  | Some v => if String.prefix "-" v then None else Some v
  | None => None
  end.

(** [s.substring(n)] *)
Definition String_substringFrom (n : nat) (s : string) : string :=
  String.substring n (String.length s - n) s.

Definition planOfString (s : string) : PlanType :=
  if String.eqb s "pro" then pro
  else if String.eqb s "max5" then max5
  else if String.eqb s "max20" then max20
  else if String.eqb s "custom_max" then custom_max
  else unknown_plan.

Section CommandLine.

Variable host : Host.

(** [parseInt(s, 10)]; [None] is NaN. *)
Variable parseInt : string -> option Z.

(** The test on a parsed hour, with the hour when it passes. *)
Definition checkedHour (s : string) : option Z :=
  match parseInt s with
  | Some hour => if (0 <=? hour) && (hour <=? 23) then Some hour else None
  | None => None
  end.

(** The body of the [for] loop of [parseArgs]: the updated result and
    whether the next argument was taken as the value of this one. *)
Definition parseArgs_step (arg : string) (nextArg : option string)
    (result : ParsedArgs) : startup (ParsedArgs * bool) :=
  let setPlan v :=
    {| arg_plan := v; arg_resetHour := arg_resetHour result;
       arg_timezone := arg_timezone result; arg_help := arg_help result;
       arg_version := arg_version result |} in
  let setHour h :=
    {| arg_plan := arg_plan result; arg_resetHour := Some h;
       arg_timezone := arg_timezone result; arg_help := arg_help result;
       arg_version := arg_version result |} in
  let setZone v :=
    {| arg_plan := arg_plan result; arg_resetHour := arg_resetHour result;
       arg_timezone := v; arg_help := arg_help result;
       arg_version := arg_version result |} in
  if String.eqb arg "--plan" || String.eqb arg "-p" then
    match flagValue nextArg with
    | Some v => Continue (setPlan v, true)
    | None => Continue (result, false)
    end
  else if String.eqb arg "--reset-hour" || String.eqb arg "-r" then
    match flagValue nextArg with
    | Some v =>
        match checkedHour v with
        | Some hour => Continue (setHour hour, true)
        | None => Exit 1
        end
    | None => Continue (result, false)
    end
  else if String.eqb arg "--timezone" || String.eqb arg "-t" then
    match flagValue nextArg with
    | Some v => Continue (setZone v, true)
    | None => Continue (result, false)
    end
  else if String.eqb arg "--help" || String.eqb arg "-h" then
    Continue ({| arg_plan := arg_plan result;
                 arg_resetHour := arg_resetHour result;
                 arg_timezone := arg_timezone result; arg_help := true;
                 arg_version := arg_version result |}, false)
  else if String.eqb arg "--version" || String.eqb arg "-v" then
    Continue ({| arg_plan := arg_plan result;
                 arg_resetHour := arg_resetHour result;
                 arg_timezone := arg_timezone result;
                 arg_help := arg_help result; arg_version := true |}, false)
  else if String.prefix "-p=" arg then
    Continue (setPlan (String_substringFrom 3 arg), false)
  else if String.prefix "-r=" arg then
    match checkedHour (String_substringFrom 3 arg) with
    | Some hour => Continue (setHour hour, false)
    | None => Exit 1
    end
  else if String.prefix "-t=" arg then
    Continue (setZone (String_substringFrom 3 arg), false)
  else if String.prefix "--plan=" arg then
    Continue (setPlan (String_substringFrom 7 arg), false)
  else if String.prefix "--reset-hour=" arg then
    match checkedHour (String_substringFrom 13 arg) with
    | Some hour => Continue (setHour hour, false)
    | None => Exit 1
    end
  else if String.prefix "--timezone=" arg then
    Continue (setZone (String_substringFrom 11 arg), false)
  else if String.prefix "-" arg && negb (String.prefix "--" arg) then Exit 1
  else if String.prefix "--" arg then Exit 1
  else Continue (result, false).

Fixpoint parseArgs_loop (args : list string) (result : ParsedArgs)
  : startup ParsedArgs :=
  match args with
  | [] => Continue result
  | arg :: rest =>
      match parseArgs_step arg (hd_error rest) result with
      | Exit code => Exit code
      | Continue (result', false) => parseArgs_loop rest result'
      | Continue (result', true) =>
          match rest with
          | _ :: rest' => parseArgs_loop rest' result'
          | [] => Continue result'
          end
      end
  end.

Definition parseArgs (args : list string) : startup ParsedArgs :=
  parseArgs_loop args
    {| arg_plan := "pro"; arg_resetHour := None;
       arg_timezone := sysZone host; arg_help := false;
       arg_version := false |}.

Definition validPlans : list string := ["pro"; "max5"; "max20"; "custom_max"].

Definition validateArgs (args : ParsedArgs) : startup unit :=
  if existsb (String.eqb (arg_plan args)) validPlans then Continue tt
  else Exit 1.

(** Lines 26-46 of [main]: the options of the run, or the exit code. *)
Definition main_options (argv : list string) : startup MonitorOptions :=
  match parseArgs argv with
  | Exit code => Exit code
  | Continue args =>
      if arg_help args then Exit 0
      else if arg_version args then Exit 0
      else
        match validateArgs args with
        | Exit code => Exit code
        | Continue _ =>
            Continue {| plan := planOfString (arg_plan args);
                        resetHour := arg_resetHour args;
                        timezone := arg_timezone args |}
        end
  end.

End CommandLine.

(** A [parseInt] for the samples: decimal digits only. *)
Definition sampleParseInt (s : string) : option Z :=
  match NilZero.int_of_string s with
  | Some (Decimal.Pos d) =>
      if String.eqb s EmptyString then None else Some (Z.of_int (Decimal.Pos d))
  | _ => None
  end.

(** ** Vocabulary of the statements about usage *)

(** The blocks that count as sessions: those that are not gaps. *)
Definition sessions (blocks : list CcusageBlock) : list CcusageBlock :=
  filter (fun b => negb (truthy (isGap b))) blocks.

(** Sum of the token counts of a list of blocks. *)
Definition tokensOf (blocks : list CcusageBlock) : N :=
  fold_right (fun b acc => (orZero (totalTokens b) + acc)%N) 0%N blocks.

(** The [startTime] of a block does not stop [calculateTokenUsage]: the
    block is a gap, or has no [startTime], or one that parses. *)
Definition usageParses (host : Host) (b : CcusageBlock) : bool :=
  truthy (isGap b)
  || match truthyStr (startTime b) with
     | Some s => match Date_parse host s with Some _ => true | None => false end
     | None => true
     end.

(** ** Vocabulary of the statements about the command line *)

(** The arguments that [parseArgs] treats as flags it knows: the five
    pairs of names and the six forms with an equals sign. *)
Definition isKnownFlag (arg : string) : bool :=
  existsb (String.eqb arg)
    ["--plan"; "-p"; "--reset-hour"; "-r"; "--timezone"; "-t"; "--help";
     "-h"; "--version"; "-v"]
  || existsb (fun form => String.prefix form arg)
       ["-p="; "-r="; "-t="; "--plan="; "--reset-hour="; "--timezone="].

(** What an iteration reads at nine o'clock when [ccusage] reports
    [reported]. *)
Definition tickAtNine (reported : list CcusageBlock) : TickInput :=
  {| fetched := Some {| blocks := reported |}; clock := t_2024_01_01 9 0 0 |}.

(** * Properties *)

(** ** Quota resolution *)

Lemma completedTokens_nonneg (blocks : list CcusageBlock) :
  Forall (fun t => 0 <= t) (completedTokens blocks).
Proof.
  unfold completedTokens.
  apply Forall_forall. intros t Ht.
  apply in_map_iff in Ht. destruct Ht as [b [<- _]]. lia.
Qed.

Lemma maxCount_upper (counts : list Z) :
  Forall (fun t => t <= maxCount counts) counts.
Proof.
  induction counts as [|c counts IH]; simpl; constructor.
  - lia.
  - eapply Forall_impl; [|exact IH]. simpl. intros. lia.
Qed.


Lemma maxCount_nonneg (counts : list Z) : 0 <= maxCount counts.
Proof. induction counts; simpl; lia. Qed.

(** The scan of [getTokenLimit], started from any running maximum. *)
Lemma scan_is_max (blocks : list CcusageBlock) (m0 : Z) :
  fold_left
    (fun maxTokens block =>
       if negb (truthy (isGap block)) && negb (truthy (isActive block))
       then
         let tokens := Z.of_N (orZero (totalTokens block)) in
         if tokens >? maxTokens then tokens else maxTokens
       else maxTokens)
    blocks m0
  = Z.max m0 (fold_right Z.max m0 (completedTokens blocks)).
Proof.
  revert m0. induction blocks as [|b blocks IH]; intros m0; simpl.
  - lia.
  - rewrite IH. unfold completedTokens. simpl.
    destruct (negb (truthy (isGap b)) && negb (truthy (isActive b))); simpl.
    + fold (completedTokens blocks).
      set (t := Z.of_N (orZero (totalTokens b))).
      assert (Hge : forall l a, a <= fold_right Z.max a l).
      { induction l; simpl; intros; [lia|]. specialize (IHl a0). lia. }
      assert (Hsplit : forall l a c, a <= c ->
                 fold_right Z.max c l = Z.max c (fold_right Z.max a l)).
      { induction l; simpl; intros; [lia|].
        rewrite (IHl _ _ H). lia. }
      destruct (Z.gtb_spec t m0).
      * rewrite (Hsplit (completedTokens blocks) m0 t) by lia.
        pose proof (Hge (completedTokens blocks) m0). lia.
      * pose proof (Hge (completedTokens blocks) m0). lia.
    + reflexivity.
Qed.

Lemma getTokenLimit_custom_max (blocks : list CcusageBlock) :
  getTokenLimit custom_max (Some blocks)
  = if maxCount (completedTokens blocks) =? 0 then 7000
    else maxCount (completedTokens blocks).
Proof.
  unfold getTokenLimit. rewrite scan_is_max.
  fold (maxCount (completedTokens blocks)).
  pose proof (maxCount_nonneg (completedTokens blocks)) as Hnn.
  rewrite Z.max_r by exact Hnn.
  destruct (Z.gtb_spec (maxCount (completedTokens blocks)) 0);
    destruct (Z.eqb_spec (maxCount (completedTokens blocks)) 0); lia.
Qed.

Lemma existsb_above_max (k : Z) (counts : list Z) :
  0 <= k -> existsb (fun t => k <? t) counts = (k <? maxCount counts).
Proof.
  intros Hk. induction counts as [|c counts IH]; simpl.
  - symmetry. apply Z.ltb_ge. exact Hk.
  - rewrite IH.
    destruct (Z.ltb_spec k c), (Z.ltb_spec k (maxCount counts)),
      (Z.ltb_spec k (Z.max c (maxCount counts))); simpl; try reflexivity; lia.
Qed.


(** The example of the specification: the active block is left out of
    the scan. *)
Example getTokenLimit_custom_max_example :
  getTokenLimit custom_max
    (Some [mkBlock None None (Some 50000%N) (Some false) (Some false);
           mkBlock None None (Some 30000%N) (Some true) (Some false)])
  = 50000.
Proof. reflexivity. Qed.

(** ** The stored limit across iterations *)

Section MonitorLoop.

Variable host : Host.

Lemma main_switchLimit_ge (monitorOptions : MonitorOptions)
    (tokenLimit tokensUsed : Z) (blocks : list CcusageBlock) :
  tokenLimit <= main_switchLimit monitorOptions tokenLimit tokensUsed blocks.
Proof.
  unfold main_switchLimit.
  destruct ((tokensUsed >? tokenLimit)
            && PlanType_eqb (plan monitorOptions) pro); [|lia].
  destruct (Z.gtb_spec (getTokenLimit custom_max (Some blocks)) tokenLimit);
    lia.
Qed.

Lemma main_tick_ge (monitorOptions : MonitorOptions) (tokenLimit : Z)
    (input : TickInput) :
  tokenLimit <= fst (main_tick host monitorOptions tokenLimit input).
Proof.
  unfold main_tick.
  destruct (fetched input) as [data|]; simpl; [|lia].
  destruct (find _ (blocks data)) as [activeBlock|]; simpl; [|lia].
  apply main_switchLimit_ge.
Qed.

Lemma main_loop_lower_bound (monitorOptions : MonitorOptions)
    (inputs : list TickInput) :
  forall tokenLimit,
    Forall (fun l => tokenLimit <= l)
      (main_loop host monitorOptions tokenLimit inputs).
Proof.
  induction inputs as [|input rest IH]; intros tokenLimit; simpl.
  - constructor.
  - pose proof (main_tick_ge monitorOptions tokenLimit input) as Hge.
    destruct (main_tick host monitorOptions tokenLimit input)
      as [tokenLimit' outcome]; simpl in Hge.
    constructor; [exact Hge|].
    destruct (isOk outcome); [|constructor].
    eapply Forall_impl; [|apply IH]. simpl. intros. lia.
Qed.

Lemma main_loop_sorted (monitorOptions : MonitorOptions)
    (inputs : list TickInput) :
  forall tokenLimit,
    StronglySorted Z.le (main_loop host monitorOptions tokenLimit inputs).
Proof.
  induction inputs as [|input rest IH]; intros tokenLimit; simpl.
  - constructor.
  - destruct (main_tick host monitorOptions tokenLimit input)
      as [tokenLimit' outcome].
    constructor.
    + destruct (isOk outcome); [apply IH|constructor].
    + destruct (isOk outcome); [apply main_loop_lower_bound|constructor].
Qed.

(** C10. The stored token limit never decreases: one iteration of the
    loop leaves it at least as large as it found it, and over any sequence
    of iterations, from the limit computed at start-up on, every later
    value is at least every earlier one. *)
Theorem tokenLimit_monotone (monitorOptions : MonitorOptions)
    (initialData : option CcusageData) (inputs : list TickInput) :
  (forall tokenLimit input,
      let tokenLimit' := fst (main_tick host monitorOptions tokenLimit input) in
      tokenLimit <= tokenLimit' /\
      (tokenLimit' = tokenLimit \/
       plan monitorOptions = pro /\
       exists data activeBlock,
         fetched input = Some data /\
         find (fun block => truthy (isActive block)) (blocks data)
         = Some activeBlock /\
         tokenLimit < Z.of_N (orZero (totalTokens activeBlock)) /\
         tokenLimit' = getTokenLimit custom_max (Some (blocks data)))) /\
  StronglySorted Z.le
    (main_initialTokenLimit monitorOptions initialData
     :: main_loop host monitorOptions
          (main_initialTokenLimit monitorOptions initialData) inputs).
Proof.
  split.
  - intros tokenLimit input. split; [apply main_tick_ge|].
    unfold main_tick.
    destruct (fetched input) as [data|]; simpl; [|now left].
    destruct (find _ (blocks data)) as [activeBlock|] eqn:Hfind; simpl;
      [|now left].
    unfold main_switchLimit.
    set (newLimit := getTokenLimit custom_max (Some (blocks data))).
    destruct (Z.gtb_spec (Z.of_N (orZero (totalTokens activeBlock))) tokenLimit);
      cbn [andb]; [|now left].
    destruct (plan monitorOptions) eqn:Hplan; cbn [PlanType_eqb];
      try now left.
    destruct (newLimit >? tokenLimit); [|now left].
    right. split; [reflexivity|].
    exists data, activeBlock. repeat split; auto.
  - constructor.
    + apply main_loop_sorted.
    + apply main_loop_lower_bound.
Qed.

End MonitorLoop.

(** ** Time values *)

Lemma time_fields (t : Z) :
  Day t * msPerDay + HourFromTime t * msPerHour + MinFromTime t * msPerMinute
  + SecFromTime t * msPerSecond + msFromTime t = t.
Proof.
  unfold Day, HourFromTime, MinFromTime, SecFromTime, msFromTime,
    msPerDay, msPerHour, msPerMinute, msPerSecond.
  pose proof (Z.div_mod t 1000 ltac:(lia)) as H1.
  pose proof (Z.div_mod (t / 1000) 60 ltac:(lia)) as H2.
  pose proof (Z.div_mod (t / 1000 / 60) 60 ltac:(lia)) as H3.
  pose proof (Z.div_mod (t / 1000 / 60 / 60) 24 ltac:(lia)) as H4.
  replace (t / 86400000) with (t / 1000 / 60 / 60 / 24)
    by (rewrite !Z.div_div by lia; reflexivity).
  replace (t / 3600000) with (t / 1000 / 60 / 60)
    by (rewrite !Z.div_div by lia; reflexivity).
  replace (t / 60000) with (t / 1000 / 60)
    by (rewrite Z.div_div by lia; reflexivity).
  lia.
Qed.

Lemma field_ranges (t : Z) :
  0 <= HourFromTime t < 24 /\ 0 <= MinFromTime t < 60 /\
  0 <= SecFromTime t < 60 /\ 0 <= msFromTime t < 1000.
Proof.
  unfold HourFromTime, MinFromTime, SecFromTime, msFromTime, msPerSecond.
  repeat split; try (apply Z.mod_pos_bound; lia).
Qed.

Lemma ToInteger_inject_Z (z : Z) : ToInteger (inject_Z z) = z.
Proof. unfold ToInteger. simpl. apply Z.quot_1_r. Qed.

Lemma ToInteger_shift_Z (a b : Z) : ToInteger (inject_Z a + inject_Z b) = a + b.
Proof.
  unfold ToInteger. simpl. rewrite Z.quot_1_r. lia.
Qed.


Section DateFacts.

Variable host : Host.

Lemma UTC_LocalTime (t : Z) : UTC host (LocalTime host t) = t.
Proof. unfold UTC, LocalTime. lia. Qed.

Lemma Date_setHours_shift (d k : Z) :
  Date_setHours host d (inject_Z (Date_getHours host d) + inject_Z k)
  = d + k * msPerHour.
Proof.
  unfold Date_setHours, Date_getHours, MakeDate, MakeTime.
  rewrite ToInteger_shift_Z, !ToInteger_inject_Z.
  pose proof (time_fields (LocalTime host d)) as Hf.
  unfold UTC, LocalTime in *. lia.
Qed.


Lemma Date_setDate_shift (d k : Z) :
  Date_setDate host d (inject_Z (Date_getDate host d) + inject_Z k)
  = d + k * msPerDay.
Proof.
  unfold Date_setDate, Date_getDate, MakeDate, MakeDayInMonthOf.
  rewrite ToInteger_shift_Z.
  unfold TimeWithinDay, Day.
  pose proof (Z.div_mod (LocalTime host d) msPerDay ltac:(unfold msPerDay; lia)).
  unfold UTC, LocalTime in *. lia.
Qed.

(** [minus(currentTime, { hours: 1 })] is sixty minutes earlier. *)
Lemma minus_one_hour (dt : DateTime) :
  minus host dt
    {| spanMinutes := None; spanHours := Some 1%Q; spanDays := None |}
  = {| date := date dt - 60 * msPerMinute; zoneName := zoneName dt |}.
Proof.
  unfold minus, plus. cbn [spanMinutes spanHours spanDays truthyNum].
  change (Qeq_bool 1 0) with false. cbv iota.
  change (- (1))%Q with (inject_Z (-1)).
  change (truthyNum (Some (inject_Z (-1)))) with (Some (inject_Z (-1))).
  cbv iota.
  rewrite Date_setHours_shift. f_equal; unfold msPerHour, msPerMinute; lia.
Qed.

(** [plus(dt, { days: 1 })] is one day later. *)
Lemma plus_one_day (dt : DateTime) :
  plus host dt
    {| spanMinutes := None; spanHours := None; spanDays := Some 1%Q |}
  = {| date := date dt + msPerDay; zoneName := zoneName dt |}.
Proof.
  unfold plus. cbn [spanMinutes spanHours spanDays truthyNum].
  change (Qeq_bool 1 0) with false. cbv iota.
  change 1%Q with (inject_Z 1).
  rewrite Date_setDate_shift. f_equal; lia.
Qed.


Lemma setZone_cases (dt : DateTime) (timezone : string) :
  setZone host dt timezone
  = Ok (match zoneOffset host timezone with
        | Some _ => {| date := date dt; zoneName := Some timezone |}
        | None => dt
        end).
Proof.
  unfold setZone, Intl_DateTimeFormat.
  destruct (zoneOffset host timezone); reflexivity.
Qed.

(** [setZone] keeps the instant and never throws, so the handler around
    it in [getNextResetTime] is never entered. *)
Lemma targetTime_cases (currentTime : DateTime) (timezoneStr : option string) :
  getNextResetTime_targetTime host currentTime timezoneStr
  = setZone host currentTime
      (match truthyStr timezoneStr with
       | Some tz => tz
       | None => sysZone host
       end).
Proof.
  unfold getNextResetTime_targetTime. rewrite setZone_cases. reflexivity.
Qed.

End DateFacts.

(** ** Burn rate *)

Lemma Qgtb_Qmake_0 (x : Z) (p : positive) : Qgtb (x # p) 0 = (0 <? x).
Proof.
  unfold Qgtb, Qle_bool. simpl.
  destruct (Z.leb_spec (x * 1) 0), (Z.ltb_spec 0 x); simpl; lia.
Qed.

Lemma Qgtb_true (q : Q) : Qgtb q 0 = true <-> (0 < q)%Q.
Proof.
  unfold Qgtb. rewrite negb_true_iff. split; intros H.
  - apply Qnot_le_lt. intros Hle. apply Qle_bool_iff in Hle. congruence.
  - destruct (Qle_bool q 0) eqn:Hb; [|reflexivity].
    apply Qle_bool_iff in Hb. exfalso. now apply (Qlt_not_le 0 q).
Qed.

Lemma Qgtb_false (q : Q) : Qgtb q 0 = false <-> (q <= 0)%Q.
Proof.
  unfold Qgtb. rewrite negb_false_iff. apply Qle_bool_iff.
Qed.

Lemma date_if (c : bool) (a b : DateTime) :
  date (if c then a else b) = if c then date a else date b.
Proof. now destruct c. Qed.

Section BurnRate.

Variable host : Host.

Lemma contribution_spec_nonneg (nowMs : Z) (b : CcusageBlock) :
  (0 <= contribution_spec host nowMs b)%Q.
Proof.
  unfold contribution_spec.
  destruct (truthy (isGap b)); [apply Qle_refl|].
  destruct (truthyStr (startTime b)) as [s|]; [|apply Qle_refl].
  destruct (Date_parse host s) as [start|]; [|apply Qle_refl].
  destruct (effectiveEnd_spec host nowMs b) as [e|]; [|apply Qle_refl].
  cbv zeta.
  destruct (e <? nowMs - 60 * msPerMinute); [apply Qle_refl|].
  destruct (Z.leb_spec (Z.min e nowMs - Z.max start (nowMs - 60 * msPerMinute)) 0)
    as [|Hov]; [apply Qle_refl|].
  destruct (Z.leb_spec (e - start) 0) as [|Hse]; [apply Qle_refl|].
  cbn [orb].
  apply Qmult_le_0_compat.
  - unfold Qle. simpl. lia.
  - apply Qmult_le_0_compat.
    + unfold Qle. cbn [Qnum Qden]. lia.
    + apply Qinv_le_0_compat. unfold Qle. cbn [Qnum Qden]. lia.
Qed.

Lemma sum_contributions_nonneg (nowMs : Z) (blocks : list CcusageBlock) :
  (0 <= fold_right (fun b acc => contribution_spec host nowMs b + acc) 0 blocks)%Q.
Proof.
  induction blocks as [|b blocks IH]; simpl.
  - apply Qle_refl.
  - apply (Qle_trans _ (0 + 0)); [discriminate|].
    apply Qplus_le_compat; [apply contribution_spec_nonneg|exact IH].
Qed.

(** One iteration adds the block's contribution, when its timestamps
    parse. *)
Lemma burnRateIteration_spec (oneHourAgo ct : DateTime) (b : CcusageBlock)
    (acc : Q) :
  date oneHourAgo = date ct - 60 * msPerMinute ->
  parsesCleanly host b = true ->
  exists r,
    burnRateIteration host oneHourAgo ct b acc = Ok r /\
    (r == acc + contribution_spec host (date ct) b)%Q.
Proof.
  intros Hago Hparse.
  unfold burnRateIteration, parsesCleanly, contribution_spec,
    effectiveEnd_spec, fromISO, valueOf in *.
  destruct (truthyStr (startTime b)) as [s|].
  2:{ exists acc. split; [reflexivity|].
      destruct (truthy (isGap b)); now rewrite Qplus_0_r. }
  destruct (Date_parse host s) as [start|]; [|discriminate].
  cbn [bind date].
  destruct (truthy (isGap b)).
  { exists acc. split; [reflexivity|]. now rewrite Qplus_0_r. }
  assert (Hcore : forall e : Z,
    exists r,
      (if e <? date oneHourAgo then Ok acc
       else
         if (if e <? date ct then e else date ct)
            <=? (if start >? date oneHourAgo then start else date oneHourAgo)
         then Ok acc
         else
           if Qgtb ((e - start) # 60000) 0
              && Qgtb (((if e <? date ct then e else date ct)
                        - (if start >? date oneHourAgo then start
                           else date oneHourAgo)) # 60000) 0
           then
             Ok (acc
                 + inject_Z (Z.of_N (orZero (totalTokens b)))
                   * ((((if e <? date ct then e else date ct)
                        - (if start >? date oneHourAgo then start
                           else date oneHourAgo)) # 60000)
                      / ((e - start) # 60000)))%Q
           else Ok acc) = Ok r /\
      (r == acc +
            (if e <? date ct - 60 * msPerMinute then 0
             else
               if (Z.min e (date ct) - Z.max start (date ct - 60 * msPerMinute) <=? 0)
                  || (e - start <=? 0)
               then 0
               else
                 inject_Z (Z.of_N (orZero (totalTokens b)))
                 * (((Z.min e (date ct) - Z.max start (date ct - 60 * msPerMinute)) # 60000)
                    / ((e - start) # 60000))))%Q).
  { intros e. rewrite Hago. rewrite !Qgtb_Qmake_0.
    set (w := date ct - 60 * msPerMinute).
    destruct (Z.ltb_spec e w) as [Hew|Hew].
    { exists acc. split; [reflexivity|]. now rewrite Qplus_0_r. }
    assert (Hmin : Z.min e (date ct) = if e <? date ct then e else date ct).
    { destruct (Z.ltb_spec e (date ct)); lia. }
    assert (Hmax : Z.max start w = if start >? w then start else w).
    { destruct (Z.gtb_spec start w); lia. }
    rewrite Hmin, Hmax.
    set (oe := if e <? date ct then e else date ct).
    set (os := if start >? w then start else w).
    destruct (Z.leb_spec oe os) as [Hle|Hgt].
    { exists acc. split; [reflexivity|].
      destruct (Z.leb_spec (oe - os) 0); [|lia].
      cbn [orb]. now rewrite Qplus_0_r. }
    destruct (Z.leb_spec (oe - os) 0); [lia|]. cbn [orb].
    destruct (Z.ltb_spec 0 (e - start)), (Z.leb_spec (e - start) 0);
      try lia; cbn [andb].
    destruct (Z.ltb_spec 0 (oe - os)); [|lia].
    eexists. split; reflexivity. }
  destruct (truthy (isActive b)).
  { cbn [bind diff minutes]. rewrite !date_if. cbn [date]. apply Hcore. }
  destruct (truthyStr (actualEndTime b)) as [endStr|].
  2:{ cbn [bind diff minutes]. rewrite !date_if. cbn [date]. apply Hcore. }
  destruct (Date_parse host endStr) as [e|]; [|discriminate].
  cbn [bind diff minutes]. rewrite !date_if. cbn [date]. apply Hcore.
Qed.

Lemma burnRateIteration_isOk (oneHourAgo ct : DateTime) (b : CcusageBlock)
    (acc : Q) :
  isOk (burnRateIteration host oneHourAgo ct b acc) = parsesCleanly host b.
Proof.
  unfold burnRateIteration, parsesCleanly, fromISO.
  destruct (truthyStr (startTime b)) as [s|]; [|reflexivity].
  destruct (Date_parse host s) as [start|]; [|reflexivity].
  cbn [bind].
  destruct (truthy (isGap b)); [reflexivity|]. cbn [orb].
  destruct (truthy (isActive b)).
  { cbn [bind].
    repeat match goal with |- context [if ?c then _ else _] => destruct c end;
      reflexivity. }
  destruct (truthyStr (actualEndTime b)) as [endStr|].
  - destruct (Date_parse host endStr) as [e|]; [|reflexivity]. cbn [bind].
    repeat match goal with |- context [if ?c then _ else _] => destruct c end;
      reflexivity.
  - cbn [bind].
    repeat match goal with |- context [if ?c then _ else _] => destruct c end;
      reflexivity.
Qed.

Lemma burnRateLoop_spec (oneHourAgo ct : DateTime)
    (blocks : list CcusageBlock) :
  date oneHourAgo = date ct - 60 * msPerMinute ->
  forallb (parsesCleanly host) blocks = true ->
  forall acc,
  exists r,
    burnRateLoop host oneHourAgo ct blocks acc = Ok r /\
    (r == acc
          + fold_right (fun b acc => contribution_spec host (date ct) b + acc) 0
              blocks)%Q.
Proof.
  intros Hago. induction blocks as [|b blocks IH]; intros Hall acc.
  - exists acc. split; [reflexivity|]. simpl. now rewrite Qplus_0_r.
  - simpl in Hall. apply andb_true_iff in Hall. destruct Hall as [Hb Hrest].
    destruct (burnRateIteration_spec oneHourAgo ct b acc Hago Hb)
      as [r1 [Hr1 Heq1]].
    destruct (IH Hrest r1) as [r [Hr Heq]].
    exists r. split.
    + simpl. rewrite Hr1. exact Hr.
    + simpl. rewrite Heq, Heq1. now rewrite Qplus_assoc.
Qed.

Lemma burnRateLoop_isOk (oneHourAgo ct : DateTime)
    (blocks : list CcusageBlock) :
  forall acc,
    isOk (burnRateLoop host oneHourAgo ct blocks acc)
    = forallb (parsesCleanly host) blocks.
Proof.
  induction blocks as [|b blocks IH]; intros acc; simpl; [reflexivity|].
  rewrite <- (burnRateIteration_isOk oneHourAgo ct b acc).
  destruct (burnRateIteration host oneHourAgo ct b acc) as [r|e]; simpl.
  - apply IH.
  - reflexivity.
Qed.

(** The function throws exactly when some block has a timestamp that it
    hands to [fromISO] and that does not parse. *)
Lemma calculateHourlyBurnRate_isOk (blocks : list CcusageBlock)
    (ct : DateTime) :
  isOk (calculateHourlyBurnRate host blocks ct)
  = forallb (parsesCleanly host) blocks.
Proof.
  unfold calculateHourlyBurnRate.
  destruct blocks as [|b blocks]; [reflexivity|].
  set (bs := b :: blocks).
  rewrite <- (burnRateLoop_isOk
                (minus host ct
                   {| spanMinutes := None; spanHours := Some 1%Q;
                      spanDays := None |}) ct bs 0%Q).
  destruct (burnRateLoop _ _ _ _ _); reflexivity.
Qed.

End BurnRate.

Section BurnRateClaims.

Variable host : Host.



Lemma burnRateLoop_skip (oneHourAgo ct : DateTime) (b : CcusageBlock)
    (pre post : list CcusageBlock) :
  truthyStr (startTime b) = None ->
  forall acc,
    burnRateLoop host oneHourAgo ct (pre ++ b :: post) acc
    = burnRateLoop host oneHourAgo ct (pre ++ post) acc.
Proof.
  intros Habsent. induction pre as [|p pre IH]; intros acc; simpl.
  - unfold burnRateIteration. rewrite Habsent. reflexivity.
  - destruct (burnRateIteration host oneHourAgo ct p acc); simpl;
      [apply IH|reflexivity].
Qed.

(** C4 (amended). A block whose [startTime] is absent or empty is
    skipped: with or without it the call has the same outcome, so it
    contributes exactly 0 and never makes the call throw.  A block whose
    [startTime] is present and does not parse makes the call throw,
    whatever its flags and the other blocks are. *)
Theorem startTime_absent_or_unparseable (b : CcusageBlock)
    (currentTime : DateTime) :
  (truthyStr (startTime b) = None ->
   forall pre post,
     calculateHourlyBurnRate host (pre ++ b :: post) currentTime
     = calculateHourlyBurnRate host (pre ++ post) currentTime) /\
  (forall s blocks,
      truthyStr (startTime b) = Some s ->
      Date_parse host s = None ->
      In b blocks ->
      exists e, calculateHourlyBurnRate host blocks currentTime = Throw e).
Proof.
  split.
  - intros Habsent pre post. unfold calculateHourlyBurnRate.
    destruct (pre ++ b :: post) as [|x xs] eqn:Hfull.
    { now destruct pre. }
    rewrite <- Hfull.
    rewrite burnRateLoop_skip by exact Habsent.
    destruct (pre ++ post) as [|y ys] eqn:Hrest; reflexivity.
  - intros s blocks Hs Hparse Hin.
    pose proof (calculateHourlyBurnRate_isOk host blocks currentTime) as Hok.
    assert (Hbad : forallb (parsesCleanly host) blocks = false).
    { apply not_true_is_false. intros Hall.
      rewrite forallb_forall in Hall. specialize (Hall b Hin).
      unfold parsesCleanly in Hall. rewrite Hs, Hparse in Hall.
      discriminate. }
    rewrite Hbad in Hok.
    destruct (calculateHourlyBurnRate host blocks currentTime) as [r|e];
      [discriminate|].
    now exists e.
Qed.

End BurnRateClaims.





(** C4, witness: a block without [startTime] is skipped, a block with an
    unparseable one makes the call throw. *)
Lemma startTime_absent_or_unparseable_witness :
  calculateHourlyBurnRate utcHost
    ([activeSince0930] ++ withoutStart :: [completed0800to0930]) tenOClock
  = calculateHourlyBurnRate utcHost
      ([activeSince0930] ++ [completed0800to0930]) tenOClock /\
  exists e,
    calculateHourlyBurnRate utcHost [activeSince0930; badStart] tenOClock
    = Throw e.
Proof.
  split.
  - apply (proj1 (startTime_absent_or_unparseable utcHost withoutStart tenOClock)).
    reflexivity.
  - apply (proj2 (startTime_absent_or_unparseable utcHost badStart tenOClock)
             notADate [activeSince0930; badStart]).
    + reflexivity.
    + reflexivity.
    + simpl. right. left. reflexivity.
Defined.

(** C4, counterexample: a gap block whose [startTime] does not parse;
    the call throws instead of returning. *)
Lemma calculateHourlyBurnRate_throws_on_gap :
  truthy (isGap badStartGap) = true /\
  Date_parse utcHost notADate = None /\
  calculateHourlyBurnRate utcHost [badStartGap] tenOClock
  = Throw (InvalidISO notADate).
Proof. repeat split. Qed.

(** ** Reset time: what never fails *)

Section ResetTimeFacts.

Variable host : Host.

Lemma zoneOffset_sysZone : zoneOffset host (sysZone host) = Some (sysOffset host).
Proof. unfold zoneOffset. now rewrite String.eqb_refl. Qed.


Lemma getHour_ok (dt : DateTime) :
  zoneKnown host dt = true -> exists h, getHour host dt = Ok h.
Proof.
  unfold zoneKnown, getHour, Intl_DateTimeFormat.
  destruct (truthyStr (zoneName dt)) as [z|]; [|intros _; eexists; reflexivity].
  destruct (zoneOffset host z); [intros _; eexists; reflexivity|discriminate].
Qed.

Lemma getMinute_ok (dt : DateTime) :
  zoneKnown host dt = true -> exists m, getMinute host dt = Ok m.
Proof.
  unfold zoneKnown, getMinute, Intl_DateTimeFormat.
  destruct (truthyStr (zoneName dt)) as [z|]; [|intros _; eexists; reflexivity].
  destruct (zoneOffset host z); [intros _; eexists; reflexivity|discriminate].
Qed.

(** An identifier the host does not know leaves the instant in the zone
    it came with. *)
Lemma targetTime_unknown_zone (currentTime : DateTime) (tz : string) :
  truthyStr (Some tz) = Some tz ->
  zoneOffset host tz = None ->
  getNextResetTime_targetTime host currentTime (Some tz) = Ok currentTime.
Proof.
  intros Htz Hunknown. rewrite targetTime_cases, Htz, setZone_cases, Hunknown.
  reflexivity.
Qed.



End ResetTimeFacts.

(** ** One iteration of the loop *)

Section TickFacts.

Variable host : Host.

Lemma calculateHourlyBurnRate_nonneg (blocks : list CcusageBlock)
    (ct : DateTime) (r : Q) :
  calculateHourlyBurnRate host blocks ct = Ok r -> (0 <= r)%Q.
Proof.
  unfold calculateHourlyBurnRate. destruct blocks as [|b blocks].
  - intros [= <-]. apply Qle_refl.
  - destruct (burnRateLoop _ _ _ _ _) as [total|]; [|discriminate].
    cbn [bind]. intros [= <-].
    destruct (Qgtb total 0) eqn:Hpos; [|apply Qle_refl].
    apply Qgtb_true in Hpos.
    apply Qlt_le_weak. apply Qlt_shift_div_l; [reflexivity|].
    now rewrite Qmult_0_l.
Qed.

(** The clock reading that reaches the computations is [now()], with or
    without the detour through the zone of the active block's start. *)
Lemma tick_currentTime (start : DateTime) (isoString : string) (clock : Z) :
  fromISO host isoString = Ok start ->
  match truthyStr (getZoneName start) with
  | Some zoneName => setZone host (now host clock) zoneName
  | None => Ok (now host clock)
  end = Ok (now host clock).
Proof.
  unfold fromISO. destruct (Date_parse host isoString); [|discriminate].
  intros [= <-]. unfold getZoneName. cbn [zoneName].
  destruct (tzMatch isoString); [|reflexivity].
  destruct (sysZone host) eqn:Hz; cbn [truthyStr]; [reflexivity|].
  rewrite <- Hz, setZone_cases, zoneOffset_sysZone. reflexivity.
Qed.

(** What an iteration that reaches the display has computed. *)
Lemma main_tick_displayed (monitorOptions : MonitorOptions)
    (tokenLimit tokenLimit' : Z) (input : TickInput) (s : Snapshot) :
  main_tick host monitorOptions tokenLimit input
  = (tokenLimit', Ok (Displayed s)) ->
  exists data activeBlock,
    fetched input = Some data /\
    find (fun block => truthy (isActive block)) (blocks data)
    = Some activeBlock /\
    tokensUsed s = Z.of_N (orZero (totalTokens activeBlock)) /\
    tokenLimit'
    = main_switchLimit monitorOptions tokenLimit (tokensUsed s) (blocks data) /\
    tokenLimitShown s = tokenLimit' /\
    tokensLeft s = tokenLimit' - tokensUsed s /\
    currentTime s = now host (clock input) /\
    calculateHourlyBurnRate host (blocks data) (currentTime s)
    = Ok (burnRate s) /\
    getNextResetTime host (currentTime s) (resetHour monitorOptions)
      (Some (timezone monitorOptions)) = Ok (resetTime s) /\
    predictedEndTime s
    = main_predictedEndTime host (currentTime s) (resetTime s) (burnRate s)
        (tokensLeft s) /\
    showExceedNotification s = (tokensUsed s >? tokenLimit').
Proof.
  unfold main_tick.
  destruct (fetched input) as [data|]; [|discriminate].
  destruct (find _ (blocks data)) as [activeBlock|] eqn:Hfind; [|discriminate].
  intros [= <- Hout]. exists data, activeBlock.
  set (limit' := main_switchLimit _ _ _ _) in *.
  assert (Htiming :
    forall T (k : Q * DateTime -> result T) out,
      (timing <-
         match truthyStr (startTime activeBlock) with
         | Some startTimeStr =>
             start <- fromISO host startTimeStr ;;
             currentTime <-
               match truthyStr (getZoneName start) with
               | Some zoneName => setZone host (now host (clock input)) zoneName
               | None => Ok (now host (clock input))
               end ;;
             Ok (minutes (diff currentTime start unit_minutes), currentTime)
         | None => Ok (0%Q, now host (clock input))
         end ;; k timing) = Ok out ->
      exists elapsed, k (elapsed, now host (clock input)) = Ok out).
  { intros T k out. destruct (truthyStr (startTime activeBlock)) as [str|].
    - destruct (fromISO host str) as [start|] eqn:Hstart; [|discriminate].
      cbn [bind]. rewrite (tick_currentTime start str (clock input) Hstart).
      cbn [bind]. eauto.
    - cbn [bind]. eauto. }
  apply Htiming in Hout. destruct Hout as [elapsed Hout]. cbn [fst snd] in Hout.
  destruct (calculateHourlyBurnRate host (blocks data) (now host (clock input)))
    as [rate|] eqn:Hrate; [|discriminate].
  cbn [bind] in Hout.
  destruct (getNextResetTime host (now host (clock input))
              (resetHour monitorOptions) (Some (timezone monitorOptions)))
    as [reset|] eqn:Hreset; [|discriminate].
  cbn [bind] in Hout. injection Hout as <-.
  cbn [tokensUsed tokenLimitShown tokensLeft currentTime burnRate resetTime
       predictedEndTime showExceedNotification].
  repeat split; auto.
Qed.

End TickFacts.

Section TickClaims.

Variable host : Host.

(** C8 (amended). On plan pro with a stored quota of 7000 and an active
    block of 8000 tokens, the quota becomes the custom_max value when
    some completed non-gap block exceeds 7000 tokens and stays 7000
    otherwise; the exceeded-quota flag of that iteration is true exactly
    when the resulting quota is below 8000, so it is true when the quota
    stays 7000 and false once the quota was raised to 8000 or more. *)
Theorem quota_exceeded_scenario (monitorOptions : MonitorOptions)
    (input : TickInput) (data : CcusageData) (activeBlock : CcusageBlock) :
  plan monitorOptions = pro ->
  fetched input = Some data ->
  find (fun block => truthy (isActive block)) (blocks data)
  = Some activeBlock ->
  orZero (totalTokens activeBlock) = 8000%N ->
  let quota :=
    if existsb (fun t => 7000 <? t) (completedTokens (blocks data))
    then getTokenLimit custom_max (Some (blocks data))
    else 7000 in
  fst (main_tick host monitorOptions 7000 input) = quota /\
  forall s,
    snd (main_tick host monitorOptions 7000 input) = Ok (Displayed s) ->
    tokensUsed s = 8000 /\
    tokenLimitShown s = quota /\
    showExceedNotification s = (quota <? 8000).
Proof.
  intros Hplan Hfetched Hfind Htokens quota.
  assert (Hquota : main_switchLimit monitorOptions 7000 8000 (blocks data)
                   = quota).
  { unfold main_switchLimit, quota. rewrite Hplan.
    change ((8000 >? 7000) && PlanType_eqb pro pro) with true. cbv iota.
    rewrite existsb_above_max by lia. rewrite getTokenLimit_custom_max.
    pose proof (maxCount_nonneg (completedTokens (blocks data))).
    destruct (Z.eqb_spec (maxCount (completedTokens (blocks data))) 0) as [->|];
      [reflexivity|].
    destruct (Z.gtb_spec (maxCount (completedTokens (blocks data))) 7000),
      (Z.ltb_spec 7000 (maxCount (completedTokens (blocks data))));
      try reflexivity; lia. }
  assert (Hfst : fst (main_tick host monitorOptions 7000 input) = quota).
  { unfold main_tick. rewrite Hfetched, Hfind. cbn [fst].
    rewrite Htokens. exact Hquota. }
  split; [exact Hfst|].
  intros s Hs.
  destruct (main_tick_displayed host monitorOptions 7000 quota input s)
    as (data' & active' & Hf' & Hfind' & Hused & _ & Hshown & _ & _ & _ & _ & _ & Hflag).
  { rewrite (surjective_pairing (main_tick host monitorOptions 7000 input)).
    now rewrite Hfst, Hs. }
  rewrite Hfetched in Hf'. injection Hf' as <-.
  rewrite Hfind in Hfind'. injection Hfind' as <-.
  rewrite Htokens in Hused.
  repeat split; [exact Hused|exact Hshown|].
  rewrite Hflag, Hused. apply Z.gtb_ltb.
Qed.


End TickClaims.

(** C8, witness: a completed session of 7500 tokens raises the quota to
    7500, and 8000 tokens still exceed it. *)
Lemma quota_exceeded_scenario_witness :
  fst (main_tick utcHost proOptions 7000 (tickAtTen [completed7500; active8000]))
  = 7500 /\
  forall s,
    snd (main_tick utcHost proOptions 7000
           (tickAtTen [completed7500; active8000])) = Ok (Displayed s) ->
    tokensUsed s = 8000 /\ tokenLimitShown s = 7500 /\
    showExceedNotification s = true.
Proof.
  exact (quota_exceeded_scenario utcHost proOptions
           (tickAtTen [completed7500; active8000])
           {| blocks := [completed7500; active8000] |} active8000
           eq_refl eq_refl eq_refl eq_refl).
Defined.

(** C8, counterexample: a completed session of 50000 tokens raises the
    quota to 50000, and the exceeded-quota flag of the iteration is
    false although 8000 tokens were used. *)
Lemma quota_exceeded_flag_false :
  plan proOptions = pro /\
  exists s,
    main_tick utcHost proOptions 7000 (tickAtTen [completed50000; active8000])
    = (50000, Ok (Displayed s)) /\
    tokensUsed s = 8000 /\
    showExceedNotification s = false.
Proof.
  split; [reflexivity|].
  vm_compute. eexists. split; [reflexivity|]. split; reflexivity.
Qed.



(** ** Reset time when the projection zone has the host's offset *)

Section ResetTimeHostZone.

Variable host : Host.

Lemma LocalTime_UTC (t : Z) : LocalTime host (UTC host t) = t.
Proof. unfold UTC, LocalTime. lia. Qed.

Lemma day_start_fields (day : Z) :
  Day (day * msPerDay) = day /\
  MinFromTime (day * msPerDay) = 0 /\
  SecFromTime (day * msPerDay) = 0 /\
  msFromTime (day * msPerDay) = 0.
Proof.
  unfold Day, MinFromTime, SecFromTime, msFromTime, msPerDay, msPerMinute,
    msPerSecond.
  repeat split.
  - apply Z.div_mul. lia.
  - replace (day * 86400000) with (day * 1440 * 60000) by lia.
    rewrite Z.div_mul by lia.
    replace (day * 1440) with (day * 24 * 60) by lia. apply Z.mod_mul. lia.
  - replace (day * 86400000) with (day * 86400 * 1000) by lia.
    rewrite Z.div_mul by lia.
    replace (day * 86400) with (day * 1440 * 60) by lia. apply Z.mod_mul. lia.
  - replace (day * 86400000) with (day * 86400 * 1000) by lia.
    apply Z.mod_mul. lia.
Qed.

(** [set(startOf(dt, "day"), { hour: h })] is [h] o'clock sharp on the
    host-local day of [dt]. *)
Lemma set_startOf (dt : DateTime) (h : Z) :
  set host (startOf host dt) (Some (inject_Z h)) None
  = {| date := UTC host (Day (LocalTime host (date dt)) * msPerDay
                         + h * msPerHour);
       zoneName := zoneName dt |}.
Proof.
  unfold set, startOf. cbn [date zoneName]. f_equal.
  unfold Date_setHours4, Date_setHours, MakeDate, MakeTime.
  change (ToInteger 0) with 0.
  rewrite !Z.mul_0_l, !Z.add_0_r, LocalTime_UTC.
  destruct (day_start_fields (Day (LocalTime host (date dt))))
    as (-> & -> & -> & ->).
  rewrite !ToInteger_inject_Z. f_equal. lia.
Qed.

Lemma Day_next (t : Z) : Day (t + msPerDay) = Day t + 1.
Proof.
  unfold Day. replace (t + msPerDay) with (t + 1 * msPerDay) by lia.
  apply Z.div_add. unfold msPerDay. lia.
Qed.

(** The projection zone of a call: the zone string when it is given and
    not empty, the host's zone otherwise. *)
Lemma getNextResetTime_host_zone (currentTime : DateTime)
    (customResetHour : option Z) (timezoneStr : option string) :
  zoneOffset host
    (match truthyStr timezoneStr with
     | Some tz => tz
     | None => sysZone host
     end) = Some (sysOffset host) ->
  let resetHours :=
    match customResetHour with
    | Some h => [h]
    | None => defaultResetHours
    end in
  let localNow := LocalTime host (date currentTime) in
  exists r,
    getNextResetTime host currentTime customResetHour timezoneStr = Ok r /\
    LocalTime host (date r)
    = match getNextResetTime_nextResetHour resetHours
              (HourFromTime localNow) (MinFromTime localNow) with
      | Some h => Day localNow * msPerDay + h * msPerHour
      | None => (Day localNow + 1) * msPerDay + hd 0 resetHours * msPerHour
      end.
Proof.
  intros Hzone resetHours localNow.
  unfold getNextResetTime. rewrite targetTime_cases, setZone_cases, Hzone.
  cbn [bind].
  set (tz := match truthyStr timezoneStr with
             | Some tz => tz
             | None => sysZone host
             end) in *.
  set (targetTime := {| date := date currentTime; zoneName := Some tz |}).
  assert (Hhour : getHour host targetTime = Ok (HourFromTime localNow)).
  { unfold getHour, targetTime, Intl_DateTimeFormat. cbn [zoneName date].
    destruct tz; cbn [truthyStr]; [reflexivity|]. now rewrite Hzone. }
  assert (Hmin : getMinute host targetTime = Ok (MinFromTime localNow)).
  { unfold getMinute, targetTime, Intl_DateTimeFormat. cbn [zoneName date].
    destruct tz; cbn [truthyStr]; [reflexivity|]. now rewrite Hzone. }
  rewrite Hhour, Hmin. cbn [bind]. fold resetHours.
  set (chosen := getNextResetTime_nextResetHour resetHours
                   (HourFromTime localNow) (MinFromTime localNow)).
  set (nextReset :=
         match chosen with
         | Some h => set host (startOf host targetTime) (Some (inject_Z h)) None
         | None =>
             set host
               (startOf host
                  (plus host targetTime
                     {| spanMinutes := None; spanHours := None;
                        spanDays := Some 1%Q |}))
               (Some (inject_Z (hd 0 resetHours))) None
         end).
  assert (Hdate : LocalTime host (date nextReset)
                  = match chosen with
                    | Some h => Day localNow * msPerDay + h * msPerHour
                    | None => (Day localNow + 1) * msPerDay
                              + hd 0 resetHours * msPerHour
                    end).
  { unfold nextReset. destruct chosen as [h|].
    - rewrite set_startOf. cbn [date]. apply LocalTime_UTC.
    - rewrite plus_one_day, set_startOf. cbn [date].
      rewrite LocalTime_UTC.
      replace (LocalTime host (date targetTime + msPerDay))
        with (localNow + msPerDay)
        by (unfold localNow, LocalTime, targetTime; cbn [date]; lia).
      now rewrite Day_next. }
  destruct (truthyStr (getZoneName currentTime)) as [zone|].
  - destruct (negb _).
    + rewrite setZone_cases. eexists. split; [reflexivity|].
      destruct (zoneOffset host zone); exact Hdate.
    + eexists. split; [reflexivity|exact Hdate].
  - eexists. split; [reflexivity|exact Hdate].
Qed.

Lemma nextResetHour_found (resetHours : list Z) (H M h : Z) :
  getNextResetTime_nextResetHour resetHours H M = Some h ->
  In h resetHours /\ (H < h \/ H = h /\ M = 0).
Proof.
  unfold getNextResetTime_nextResetHour. intros Hfind.
  apply find_some in Hfind. destruct Hfind as [Hin Hcond].
  split; [exact Hin|].
  apply orb_true_iff in Hcond. destruct Hcond as [Hlt|Heq].
  - left. now apply Z.ltb_lt.
  - right. apply andb_true_iff in Heq. destruct Heq as [H1 H2].
    split; now apply Z.eqb_eq.
Qed.

(** With the host's offset as projection, the result is not before the
    current instant at minute granularity: it is strictly later, or the
    current local time is a scheduled hour at minute 0 and the result is
    that hour sharp. *)
Lemma getNextResetTime_host_zone_not_before (currentTime : DateTime)
    (customResetHour : option Z) (timezoneStr : option string) :
  zoneOffset host
    (match truthyStr timezoneStr with
     | Some tz => tz
     | None => sysZone host
     end) = Some (sysOffset host) ->
  (forall h, customResetHour = Some h -> 0 <= h < 24) ->
  let localNow := LocalTime host (date currentTime) in
  exists r,
    getNextResetTime host currentTime customResetHour timezoneStr = Ok r /\
    valueOf currentTime / msPerMinute <= valueOf r / msPerMinute /\
    (valueOf currentTime < valueOf r \/
     MinFromTime localNow = 0 /\
     LocalTime host (valueOf r)
     = Day localNow * msPerDay + HourFromTime localNow * msPerHour).
Proof.
  intros Hzone Hcustom localNow.
  destruct (getNextResetTime_host_zone currentTime customResetHour timezoneStr
              Hzone) as [r [Hr Hlocal]].
  exists r. split; [exact Hr|]. fold localNow in Hlocal. unfold valueOf.
  set (resetHours := match customResetHour with
                     | Some h => [h]
                     | None => defaultResetHours
                     end) in *.
  assert (Hrange : forall h, In h resetHours -> 0 <= h < 24).
  { intros h Hin. unfold resetHours in Hin.
    destruct customResetHour as [c|].
    - destruct Hin as [<-|[]]. now apply Hcustom.
    - unfold defaultResetHours in Hin. simpl in Hin.
      repeat (destruct Hin as [<-|Hin]; [lia|]). destruct Hin. }
  assert (Hhd : 0 <= hd 0 resetHours).
  { unfold resetHours. destruct customResetHour as [c|]; simpl; [|lia].
    destruct (Hcustom c eq_refl). lia. }
  pose proof (time_fields localNow) as Hfields.
  destruct (field_ranges localNow) as (HH & HM & HS & Hms).
  assert (Hshift : forall x,
             (x - sysOffset host * msPerMinute) / msPerMinute
             = x / msPerMinute - sysOffset host).
  { intros x.
    replace (x - sysOffset host * msPerMinute)
      with (x + (- sysOffset host) * msPerMinute) by lia.
    rewrite Z.div_add by (unfold msPerMinute; lia). lia. }
  assert (Hct : date currentTime = localNow - sysOffset host * msPerMinute)
    by (unfold localNow, LocalTime; lia).
  assert (Hrd : date r = LocalTime host (date r) - sysOffset host * msPerMinute)
    by (unfold LocalTime; lia).
  set (localReset := LocalTime host (date r)) in *.
  rewrite Hct, Hrd, !Hshift.
  destruct (getNextResetTime_nextResetHour resetHours (HourFromTime localNow)
              (MinFromTime localNow)) as [h|] eqn:Hchosen.
  - apply nextResetHour_found in Hchosen. destruct Hchosen as [Hin Hcase].
    specialize (Hrange h Hin). rewrite Hlocal.
    unfold msPerDay, msPerHour, msPerMinute, msPerSecond in *.
    destruct Hcase as [Hlt|[Heq Hzero]].
    + split.
      * apply Z.sub_le_mono_r. apply Z.div_le_mono; lia.
      * left. lia.
    + split.
      * apply Z.sub_le_mono_r. apply Z.div_le_lower_bound; [lia|].
        pose proof (Z.mul_div_le localNow 60000 ltac:(lia)).
        pose proof (Z.div_mod localNow 60000 ltac:(lia)).
        pose proof (Z.mod_pos_bound localNow 60000 ltac:(lia)).
        assert (localNow / 60000
                = Day localNow * 1440 + HourFromTime localNow * 60).
        { symmetry.
          apply (Z.div_unique _ _ _
                   (SecFromTime localNow * 1000 + msFromTime localNow)); lia. }
        lia.
      * right. split; [exact Hzero|]. rewrite Heq. reflexivity.
  - rewrite Hlocal.
    unfold msPerDay, msPerHour, msPerMinute, msPerSecond in *.
    split.
    + apply Z.sub_le_mono_r. apply Z.div_le_mono; lia.
    + left. lia.
Qed.

End ResetTimeHostZone.

(** The three examples of the specification, on a host in UTC with UTC
    as projection zone: 03:59 gives 04:00 of the same day, 04:00:00
    gives 04:00 of the same day, 23:30 gives 04:00 of the next day. *)
Example getNextResetTime_examples :
  getNextResetTime utcHost (now utcHost (t_2024_01_01 3 59 0)) None (Some "UTC")
  = Ok {| date := t_2024_01_01 4 0 0; zoneName := Some "UTC" |} /\
  getNextResetTime utcHost (now utcHost (t_2024_01_01 4 0 0)) None (Some "UTC")
  = Ok {| date := t_2024_01_01 4 0 0; zoneName := Some "UTC" |} /\
  getNextResetTime utcHost (now utcHost (t_2024_01_01 23 30 0)) None (Some "UTC")
  = Ok {| date := t_2024_01_01 (24 + 4) 0 0; zoneName := Some "UTC" |}.
Proof. vm_compute. repeat split. Qed.

(** ** Reset time: the projection zone and the host's zone *)

(** C3. An unknown zone identifier does not make the call fail, but the
    schedule is not read against the UTC wall clock: [setZone] swallows
    the error itself and hands back the instant in the zone it came
    with, so the handler that would switch to UTC is never entered.  On
    a host in Tokyo at 00:30 UTC (09:30 local time) the hour read is 9,
    not 0, the hour selected is 14, not 4, and the result is 14:00 Tokyo
    time (05:00 UTC). *)
Theorem unknown_zone_keeps_host_clock :
  let currentTime := now tokyoHost (t_2024_01_01 0 30 0) in
  zoneOffset tokyoHost unknownZone = None /\
  getNextResetTime_targetTime tokyoHost currentTime (Some unknownZone)
  = Ok currentTime /\
  getHour tokyoHost currentTime = Ok 9 /\
  getHour tokyoHost {| date := date currentTime; zoneName := Some "UTC" |}
  = Ok 0 /\
  getNextResetTime_nextResetHour defaultResetHours 9 30 = Some 14 /\
  getNextResetTime_nextResetHour defaultResetHours 0 30 = Some 4 /\
  getNextResetTime tokyoHost currentTime None (Some unknownZone)
  = Ok {| date := t_2024_01_01 5 0 0; zoneName := Some "Asia/Tokyo" |}.
Proof. vm_compute. repeat split. Qed.

(** C6. With a projection zone that is not the host's zone the selected
    hour is applied to the host's calendar day and clock.  On a host in
    UTC at 18:59 UTC, projected into Tokyo (03:59 of the next day), the
    hour selected is 4, but the result is 04:00 UTC of the host's day:
    13:00 in the projection zone, and 14 hours 59 minutes before the
    current instant instead of one minute after it. *)
Theorem selected_hour_on_host_clock :
  let currentTime := now utcHost (t_2024_01_01 18 59 0) in
  exists targetTime r rProjected,
    getNextResetTime_targetTime utcHost currentTime (Some "Asia/Tokyo")
    = Ok targetTime /\
    getHour utcHost targetTime = Ok 3 /\
    getMinute utcHost targetTime = Ok 59 /\
    getNextResetTime_nextResetHour defaultResetHours 3 59 = Some 4 /\
    getNextResetTime utcHost currentTime None (Some "Asia/Tokyo") = Ok r /\
    valueOf r = t_2024_01_01 4 0 0 /\
    setZone utcHost r "Asia/Tokyo" = Ok rProjected /\
    getHour utcHost rProjected = Ok 13 /\
    valueOf r = valueOf currentTime - (14 * msPerHour + 59 * msPerMinute).
Proof.
  intros currentTime.
  exists {| date := t_2024_01_01 18 59 0; zoneName := Some "Asia/Tokyo" |},
    {| date := t_2024_01_01 4 0 0; zoneName := Some "UTC" |},
    {| date := t_2024_01_01 4 0 0; zoneName := Some "Asia/Tokyo" |}.
  vm_compute. repeat split.
Qed.

(** C7. With a projection zone that is not the host's zone the result
    can lie before the current instant.  On a host in UTC at 20:00 UTC,
    projected into Tokyo (05:00 of the next day), the next reset is
    09:00 UTC of the host's day, eleven hours in the past. *)
Theorem next_reset_in_the_past :
  let currentTime := now utcHost (t_2024_01_01 20 0 0) in
  exists r,
    getNextResetTime utcHost currentTime None (Some "Asia/Tokyo") = Ok r /\
    valueOf r = t_2024_01_01 9 0 0 /\
    valueOf r = valueOf currentTime - 11 * msPerHour /\
    valueOf r / msPerMinute < valueOf currentTime / msPerMinute.
Proof.
  intros currentTime.
  exists {| date := t_2024_01_01 9 0 0; zoneName := Some "UTC" |}.
  vm_compute. repeat split.
Qed.

(** * Properties of the rest of the code *)

(** ** datetime.ts *)

Section DatetimeProperties.

Variable host : Host.








End DatetimeProperties.


Section DatetimeFields.

Variable host : Host.


(** X5. [setZone] never throws and keeps the instant; on a [DateTime]
    whose zone is known to the host its result is again one, so that
    reading the hour and the minute of the result succeeds, whatever the
    zone string was. *)
Theorem setZone_safe (dt : DateTime) (timezone : string) :
  zoneKnown host dt = true ->
  exists dt' h m,
    setZone host dt timezone = Ok dt' /\
    valueOf dt' = valueOf dt /\
    zoneKnown host dt' = true /\
    getHour host dt' = Ok h /\ getMinute host dt' = Ok m /\
    0 <= h < 24 /\ 0 <= m < 60.
Proof.
  intros Hknown. rewrite setZone_cases.
  set (dt' := match zoneOffset host timezone with
              | Some _ => {| date := date dt; zoneName := Some timezone |}
              | None => dt
              end).
  assert (Hk : zoneKnown host dt' = true).
  { unfold dt'. destruct (zoneOffset host timezone) eqn:Hoff; [|exact Hknown].
    unfold zoneKnown. cbn [zoneName].
    destruct timezone; cbn [truthyStr]; [reflexivity|]. now rewrite Hoff. }
  destruct (getHour_ok host dt' Hk) as [h Hh].
  destruct (getMinute_ok host dt' Hk) as [m Hm].
  exists dt', h, m. repeat split; try assumption; try reflexivity.
  - unfold dt'. now destruct (zoneOffset host timezone).
  - unfold getHour in Hh.
    destruct (truthyStr (zoneName dt')).
    + destruct (Intl_DateTimeFormat host s); [|discriminate].
      injection Hh as <-. apply Z.mod_pos_bound. lia.
    + injection Hh as <-. apply Z.mod_pos_bound. lia.
  - unfold getHour in Hh.
    destruct (truthyStr (zoneName dt')).
    + destruct (Intl_DateTimeFormat host s); [|discriminate].
      injection Hh as <-. apply Z.mod_pos_bound. lia.
    + injection Hh as <-. apply Z.mod_pos_bound. lia.
  - unfold getMinute in Hm.
    destruct (truthyStr (zoneName dt')).
    + destruct (Intl_DateTimeFormat host s); [|discriminate].
      injection Hm as <-. apply Z.mod_pos_bound. lia.
    + injection Hm as <-. apply Z.mod_pos_bound. lia.
  - unfold getMinute in Hm.
    destruct (truthyStr (zoneName dt')).
    + destruct (Intl_DateTimeFormat host s); [|discriminate].
      injection Hm as <-. apply Z.mod_pos_bound. lia.
    + injection Hm as <-. apply Z.mod_pos_bound. lia.
Qed.

End DatetimeFields.

Lemma fold_first_max (rest : list DateTime) :
  forall pre m mid,
    Forall (fun d => date d < date m) pre ->
    Forall (fun d => date d <= date m) mid ->
    exists pre' post',
      pre ++ m :: mid ++ rest
      = pre'
        ++ fold_left
             (fun max current =>
                if date current >? date max then current else max) rest m
        :: post' /\
      Forall
        (fun d =>
           date d
           < date (fold_left
                     (fun max current =>
                        if date current >? date max then current else max)
                     rest m)) pre' /\
      Forall
        (fun d =>
           date d
           <= date (fold_left
                      (fun max current =>
                         if date current >? date max then current else max)
                      rest m)) post'.
Proof.
  induction rest as [|x rest IH]; intros pre m mid Hpre Hmid.
  - exists pre, mid. rewrite app_nil_r. auto.
  - cbn [fold_left]. destruct (Z.gtb_spec (date x) (date m)) as [Hgt|Hle].
    + destruct (IH (pre ++ m :: mid) x []) as (pre' & post' & Heq & H1 & H2).
      * apply Forall_app. split.
        -- eapply Forall_impl; [|exact Hpre]. simpl. intros. lia.
        -- constructor; [lia|].
           eapply Forall_impl; [|exact Hmid]. simpl. intros. lia.
      * constructor.
      * exists pre', post'. split; [|auto].
        rewrite <- Heq. cbn [app]. rewrite <- app_assoc. reflexivity.
    + destruct (IH pre m (mid ++ [x])) as (pre' & post' & Heq & H1 & H2).
      * exact Hpre.
      * apply Forall_app. split; [exact Hmid|]. constructor; [lia|constructor].
      * exists pre', post'. split; [|auto].
        rewrite <- Heq. rewrite <- app_assoc. reflexivity.
Qed.

Lemma fold_first_min (rest : list DateTime) :
  forall pre m mid,
    Forall (fun d => date m < date d) pre ->
    Forall (fun d => date m <= date d) mid ->
    exists pre' post',
      pre ++ m :: mid ++ rest
      = pre'
        ++ fold_left
             (fun min current =>
                if date current <? date min then current else min) rest m
        :: post' /\
      Forall
        (fun d =>
           date (fold_left
                   (fun min current =>
                      if date current <? date min then current else min)
                   rest m) < date d) pre' /\
      Forall
        (fun d =>
           date (fold_left
                   (fun min current =>
                      if date current <? date min then current else min)
                   rest m) <= date d) post'.
Proof.
  induction rest as [|x rest IH]; intros pre m mid Hpre Hmid.
  - exists pre, mid. rewrite app_nil_r. auto.
  - cbn [fold_left]. destruct (Z.ltb_spec (date x) (date m)) as [Hlt|Hge].
    + destruct (IH (pre ++ m :: mid) x []) as (pre' & post' & Heq & H1 & H2).
      * apply Forall_app. split.
        -- eapply Forall_impl; [|exact Hpre]. simpl. intros. lia.
        -- constructor; [lia|].
           eapply Forall_impl; [|exact Hmid]. simpl. intros. lia.
      * constructor.
      * exists pre', post'. split; [|auto].
        rewrite <- Heq. cbn [app]. rewrite <- app_assoc. reflexivity.
    + destruct (IH pre m (mid ++ [x])) as (pre' & post' & Heq & H1 & H2).
      * exact Hpre.
      * apply Forall_app. split; [exact Hmid|]. constructor; [lia|constructor].
      * exists pre', post'. split; [|auto].
        rewrite <- Heq. rewrite <- app_assoc. reflexivity.
Qed.

(** X6. [max] throws "No dates provided" exactly on the empty list;
    otherwise it returns the first of the latest dates of the list:
    every date before it in the list is strictly earlier and none after
    it is later, so no date of the list [isAfter] it. *)
Theorem max_first_latest (dates : list DateTime) :
  match max dates with
  | Abrupt t => t = NoDatesProvided /\ dates = []
  | Normal m =>
      exists pre post,
        dates = pre ++ m :: post /\
        Forall (fun d => isBefore d m = true) pre /\
        Forall (fun d => isAfter d m = false) post
  end.
Proof.
  destruct dates as [|first rest]; cbn [max]; [auto|].
  destruct (fold_first_max rest [] first [] (Forall_nil _) (Forall_nil _))
    as (pre & post & Heq & Hpre & Hpost).
  exists pre, post. split; [exact Heq|]. split.
  - eapply Forall_impl; [|exact Hpre]. simpl. intros d Hd.
    unfold isBefore, valueOf. now apply Z.ltb_lt.
  - eapply Forall_impl; [|exact Hpost]. simpl. intros d Hd.
    unfold isAfter, valueOf. rewrite Z.gtb_ltb. now apply Z.ltb_ge.
Qed.

(** X7. [min] throws "No dates provided" exactly on the empty list;
    otherwise it returns the first of the earliest dates of the list. *)
Theorem min_first_earliest (dates : list DateTime) :
  match min dates with
  | Abrupt t => t = NoDatesProvided /\ dates = []
  | Normal m =>
      exists pre post,
        dates = pre ++ m :: post /\
        Forall (fun d => isAfter d m = true) pre /\
        Forall (fun d => isBefore d m = false) post
  end.
Proof.
  destruct dates as [|first rest]; cbn [min]; [auto|].
  destruct (fold_first_min rest [] first [] (Forall_nil _) (Forall_nil _))
    as (pre & post & Heq & Hpre & Hpost).
  exists pre, post. split; [exact Heq|]. split.
  - eapply Forall_impl; [|exact Hpre]. simpl. intros d Hd.
    unfold isAfter, valueOf. rewrite Z.gtb_ltb. now apply Z.ltb_lt.
  - eapply Forall_impl; [|exact Hpost]. simpl. intros d Hd.
    unfold isBefore, valueOf. now apply Z.ltb_ge.
Qed.


(** X5, witness: an unknown zone string on an instant in a known zone. *)
Lemma setZone_safe_witness :
  exists dt' h m,
    setZone utcHost tenOClock unknownZone = Ok dt' /\
    valueOf dt' = valueOf tenOClock /\
    zoneKnown utcHost dt' = true /\
    getHour utcHost dt' = Ok h /\ getMinute utcHost dt' = Ok m /\
    0 <= h < 24 /\ 0 <= m < 60.
Proof.
  apply (setZone_safe utcHost tenOClock unknownZone). reflexivity.
Defined.

(** The clock fields print as two digits that read back as the field. *)
Lemma toFormat_pad_two_digits (n : Z) :
  0 <= n < 60 ->
  exists a b,
    toFormat_pad n = String a (String b EmptyString) /\
    option_map Z.of_int (NilZero.int_of_string (toFormat_pad n)) = Some n.
Proof.
  intros Hn.
  assert (Hin : In (Z.to_nat n) (seq 0 60)) by (apply in_seq; lia).
  rewrite <- (Z2Nat.id n) by lia.
  revert Hin. generalize (Z.to_nat n). intros k Hin.
  cbn [seq In] in Hin.
  repeat (destruct Hin as [<-|Hin]; [vm_compute; eauto|]).
  destruct Hin.
Qed.

Section FormatProperties.

Variable host : Host.

Lemma getHour_range (dt : DateTime) (h : Z) :
  getHour host dt = Ok h -> 0 <= h < 24.
Proof.
  unfold getHour. destruct (truthyStr (zoneName dt)).
  - destruct (Intl_DateTimeFormat host s); [|discriminate].
    intros [= <-]. apply Z.mod_pos_bound. lia.
  - intros [= <-]. apply Z.mod_pos_bound. lia.
Qed.

Lemma getMinute_range (dt : DateTime) (m : Z) :
  getMinute host dt = Ok m -> 0 <= m < 60.
Proof.
  unfold getMinute. destruct (truthyStr (zoneName dt)).
  - destruct (Intl_DateTimeFormat host s); [|discriminate].
    intros [= <-]. apply Z.mod_pos_bound. lia.
  - intros [= <-]. apply Z.mod_pos_bound. lia.
Qed.

(** X8. On a [DateTime] whose zone is known, [toFormat] with "HH:mm"
    returns five characters, two digits on each side of a colon, that
    read back as the hour and the minute [getHour] and [getMinute]
    give; with "HH:mm:ss" it returns eight characters that start with
    the same five; with any other format it throws "Unsupported
    format". *)
Theorem toFormat_clock (dt : DateTime) :
  zoneKnown host dt = true ->
  exists h m hhmm hhmmss,
    getHour host dt = Ok h /\ getMinute host dt = Ok m /\
    toFormat host dt "HH:mm" = Normal hhmm /\
    String.length hhmm = 5%nat /\
    String.get 2 hhmm = Some ":"%char /\
    option_map Z.of_int (NilZero.int_of_string (String.substring 0 2 hhmm))
    = Some h /\
    option_map Z.of_int (NilZero.int_of_string (String.substring 3 2 hhmm))
    = Some m /\
    toFormat host dt "HH:mm:ss" = Normal hhmmss /\
    String.length hhmmss = 8%nat /\
    String.substring 0 5 hhmmss = hhmm /\
    forall format,
      format <> "HH:mm" -> format <> "HH:mm:ss" ->
      toFormat host dt format = Abrupt (UnsupportedFormat format).
Proof.
  intros Hknown.
  destruct (getHour_ok host dt Hknown) as [h Hh].
  destruct (getMinute_ok host dt Hknown) as [m Hm].
  pose proof (getHour_range dt h Hh) as Hhr.
  pose proof (getMinute_range dt m Hm) as Hmr.
  destruct (toFormat_pad_two_digits h ltac:(lia)) as (a & b & Hpad & Hdec).
  destruct (toFormat_pad_two_digits m Hmr) as (c & d & Hpadm & Hdecm).
  assert (Hsr : 0 <= Date_getSeconds host (date dt) < 60).
  { unfold Date_getSeconds, SecFromTime. apply Z.mod_pos_bound. lia. }
  destruct (toFormat_pad_two_digits _ Hsr) as (e & f & Hpads & _).
  unfold toFormat. rewrite Hh, Hm. cbn [lift andThen].
  change (String.eqb "HH:mm" "HH:mm") with true.
  change (String.eqb "HH:mm:ss" "HH:mm") with false.
  change (String.eqb "HH:mm:ss" "HH:mm:ss") with true. cbv iota.
  do 4 eexists.
  split; [reflexivity|]. split; [reflexivity|]. split; [reflexivity|].
  rewrite Hpads. rewrite Hpad in *. rewrite Hpadm in *.
  split; [reflexivity|]. split; [reflexivity|].
  split; [exact Hdec|]. split; [exact Hdecm|].
  split; [reflexivity|]. split; [reflexivity|].
  split.
  { cbn. reflexivity. }
  intros format H1 H2.
  destruct (String.eqb_spec format "HH:mm"); [contradiction|].
  destruct (String.eqb_spec format "HH:mm:ss"); [contradiction|].
  reflexivity.
Qed.

End FormatProperties.

(** X8, witness. *)
Lemma toFormat_clock_witness :
  exists h m hhmm hhmmss,
    getHour tokyoHost tenOClock = Ok h /\ getMinute tokyoHost tenOClock = Ok m /\
    toFormat tokyoHost tenOClock "HH:mm" = Normal hhmm /\
    String.length hhmm = 5%nat /\
    String.get 2 hhmm = Some ":"%char /\
    option_map Z.of_int (NilZero.int_of_string (String.substring 0 2 hhmm))
    = Some h /\
    option_map Z.of_int (NilZero.int_of_string (String.substring 3 2 hhmm))
    = Some m /\
    toFormat tokyoHost tenOClock "HH:mm:ss" = Normal hhmmss /\
    String.length hhmmss = 8%nat /\
    String.substring 0 5 hhmmss = hhmm /\
    forall format,
      format <> "HH:mm" -> format <> "HH:mm:ss" ->
      toFormat tokyoHost tenOClock format = Abrupt (UnsupportedFormat format).
Proof.
  apply (toFormat_clock tokyoHost tenOClock). reflexivity.
Defined.

(** ** core.ts: calculateTokenUsage *)

Section TokenUsageProperties.

Variable host : Host.

Lemma tokenUsageIteration_gap (b : CcusageBlock) (st : UsageState) :
  truthy (isGap b) = true -> tokenUsageIteration host b st = Ok st.
Proof. unfold tokenUsageIteration. now intros ->. Qed.

Lemma tokenUsageIteration_session (b : CcusageBlock) (st st' : UsageState) :
  truthy (isGap b) = false ->
  tokenUsageIteration host b st = Ok st' ->
  st_totalTokensUsed st'
  = (st_totalTokensUsed st + orZero (totalTokens b))%N /\
  st_activeSessionTokens st'
  = (st_activeSessionTokens st
     + if truthy (isActive b) then orZero (totalTokens b) else 0)%N /\
  st_completedSessionTokens st'
  = (st_completedSessionTokens st
     + if truthy (isActive b) then 0 else orZero (totalTokens b))%N /\
  st_sessionCount st' = (st_sessionCount st + 1)%N /\
  (st_lastSessionTime st', st_lastSessionTokens st')
  = match st_lastSessionTime st, truthyStr (startTime b) with
    | None, Some s =>
        (match fromISO host s with Ok d => Some d | Throw _ => None end,
         orZero (totalTokens b))
    | _, _ => (st_lastSessionTime st, st_lastSessionTokens st)
    end.
Proof.
  unfold tokenUsageIteration. intros ->.
  destruct (truthyStr (startTime b)) as [s|].
  - destruct (fromISO host s) as [d|]; [|discriminate]. cbn [bind].
    destruct (st_lastSessionTime st) as [lastTime|].
    + change (DateTime_gt d lastTime) with false. cbv iota. cbn [bind].
      intros [= <-]. cbn.
      destruct (truthy (isActive b)); repeat split; lia.
    + cbn [bind]. intros [= <-]. cbn.
      destruct (truthy (isActive b)); repeat split; lia.
  - cbn [bind]. intros [= <-]. cbn.
    destruct (st_lastSessionTime st);
      destruct (truthy (isActive b)); repeat split; lia.
Qed.

Lemma tokenUsageIteration_isOk (b : CcusageBlock) (st : UsageState) :
  isOk (tokenUsageIteration host b st) = usageParses host b.
Proof.
  unfold tokenUsageIteration, usageParses, fromISO.
  destruct (truthy (isGap b)); [reflexivity|]. cbn [orb].
  destruct (truthyStr (startTime b)) as [s|]; [|reflexivity].
  destruct (Date_parse host s); [|reflexivity]. cbn [bind].
  destruct (st_lastSessionTime st); reflexivity.
Qed.

Lemma tokenUsageLoop_isOk (blocks : list CcusageBlock) :
  forall st,
    isOk (tokenUsageLoop host blocks st) = forallb (usageParses host) blocks.
Proof.
  induction blocks as [|b blocks IH]; intros st; simpl; [reflexivity|].
  rewrite <- (tokenUsageIteration_isOk b st).
  destruct (tokenUsageIteration host b st); simpl; [apply IH|reflexivity].
Qed.


End TokenUsageProperties.


Section TokenUsageClaims.

Variable host : Host.

Lemma tokenUsageLoop_last (blocks : list CcusageBlock) :
  forall st st',
    tokenUsageLoop host blocks st = Ok st' ->
    match st_lastSessionTime st with
    | Some t =>
        st_lastSessionTime st' = Some t /\
        st_lastSessionTokens st' = st_lastSessionTokens st
    | None =>
        match
          find (fun b =>
                  negb (truthy (isGap b))
                  && match truthyStr (startTime b) with
                     | Some _ => true
                     | None => false
                     end) blocks
        with
        | Some b =>
            st_lastSessionTime st' <> None /\
            st_lastSessionTokens st' = orZero (totalTokens b)
        | None =>
            st_lastSessionTime st' = None /\
            st_lastSessionTokens st' = st_lastSessionTokens st
        end
    end.
Proof.
  induction blocks as [|b blocks IH]; intros st st' Hloop.
  - injection Hloop as <-. cbn [find].
    destruct (st_lastSessionTime st); auto.
  - cbn [tokenUsageLoop] in Hloop.
    destruct (tokenUsageIteration host b st) as [st1|] eqn:Hit; [|discriminate].
    cbn [bind] in Hloop. specialize (IH _ _ Hloop). cbn [find].
    destruct (truthy (isGap b)) eqn:Hgap; cbn [negb andb].
    + rewrite tokenUsageIteration_gap in Hit by exact Hgap.
      injection Hit as <-. exact IH.
    + destruct (tokenUsageIteration_session host b st st1 Hgap Hit)
        as (_ & _ & _ & _ & Hlast).
      destruct (st_lastSessionTime st) as [t|].
      * injection Hlast as Ht Hk. rewrite Ht in IH. rewrite <- Hk. exact IH.
      * destruct (truthyStr (startTime b)) as [s|] eqn:Hs.
        -- assert (Hd : exists d, fromISO host s = Ok d).
           { unfold tokenUsageIteration in Hit. rewrite Hgap, Hs in Hit.
             destruct (fromISO host s) as [d|]; [eauto|discriminate]. }
           destruct Hd as [d Hd]. rewrite Hd in Hlast.
           injection Hlast as Ht Hk. rewrite Ht in IH. destruct IH as [E1 E2].
           split; [congruence|]. now rewrite E2.
        -- injection Hlast as Ht Hk. rewrite Ht in IH. rewrite <- Hk. exact IH.
Qed.


(** X10. [calculateTokenUsage] throws exactly when some block that is
    not a gap has a [startTime] that does not parse; in particular it
    returns on every list on which [calculateHourlyBurnRate] returns. *)
Theorem calculateTokenUsage_isOk (blocks : list CcusageBlock)
    (currentTime : DateTime) :
  isOk (calculateTokenUsage host blocks) = forallb (usageParses host) blocks /\
  (isOk (calculateHourlyBurnRate host blocks currentTime) = true ->
   isOk (calculateTokenUsage host blocks) = true).
Proof.
  assert (Hok : isOk (calculateTokenUsage host blocks)
                = forallb (usageParses host) blocks).
  { unfold calculateTokenUsage. destruct blocks as [|b blocks]; [reflexivity|].
    set (bs := b :: blocks).
    rewrite <- (tokenUsageLoop_isOk host bs
                  {| st_totalTokensUsed := 0; st_activeSessionTokens := 0;
                     st_completedSessionTokens := 0; st_lastSessionTokens := 0;
                     st_sessionCount := 0; st_lastSessionTime := None |}).
    destruct (tokenUsageLoop host bs _); reflexivity. }
  split; [exact Hok|].
  rewrite Hok, calculateHourlyBurnRate_isOk.
  rewrite !forallb_forall. intros Hall b Hin. specialize (Hall b Hin).
  unfold parsesCleanly in Hall. unfold usageParses.
  destruct (truthyStr (startTime b)) as [s|]; [|apply orb_true_r].
  destruct (Date_parse host s); [apply orb_true_r|discriminate].
Qed.

(** X11. The "last session" that [calculateTokenUsage] reports is the
    first block of the list that is not a gap and has a [startTime],
    not the one that started last: after the first, a later start never
    compares greater, since the comparison is between two objects. *)
Theorem calculateTokenUsage_last_is_first (blocks : list CcusageBlock)
    (usage : TokenUsage) :
  calculateTokenUsage host blocks = Ok usage ->
  lastSessionTokens usage
  = match
      find (fun b =>
              negb (truthy (isGap b))
              && match truthyStr (startTime b) with
                 | Some _ => true
                 | None => false
                 end) blocks
    with
    | Some b => orZero (totalTokens b)
    | None => 0%N
    end.
Proof.
  unfold calculateTokenUsage. destruct blocks as [|b blocks].
  { intros [= <-]. reflexivity. }
  set (bs := b :: blocks).
  destruct (tokenUsageLoop host bs _) as [st|] eqn:Hloop; [|discriminate].
  cbn [bind]. intros [= <-]. cbn [lastSessionTokens].
  pose proof (tokenUsageLoop_last bs _ _ Hloop) as Hlast.
  cbn [st_lastSessionTime st_lastSessionTokens] in Hlast.
  destruct (find _ bs); tauto.
Qed.


End TokenUsageClaims.


Lemma calculateTokenUsage_last_is_first_witness :
  exists usage,
    calculateTokenUsage utcHost [completed0800to0930; activeSince0930] = Ok usage /\
    lastSessionTokens usage = 9000%N.
Proof.
  eexists. split; [vm_compute; reflexivity|].
  apply (calculateTokenUsage_last_is_first utcHost
           [completed0800to0930; activeSince0930]).
  vm_compute. reflexivity.
Defined.


(** X10, witness: where [calculateHourlyBurnRate] returns, so does
    [calculateTokenUsage]. *)
Lemma calculateTokenUsage_isOk_witness :
  isOk (calculateTokenUsage utcHost [activeSince0930; completed0800to0930]) = true.
Proof.
  apply (proj2 (calculateTokenUsage_isOk utcHost
                  [activeSince0930; completed0800to0930] tenOClock)).
  vm_compute. reflexivity.
Defined.

(** ** Order of the blocks *)




Section OrderOfBlocks.

Variable host : Host.



End OrderOfBlocks.


(** ** core.ts: more on the burn rate *)


Section BurnRateMore.

Variable host : Host.

Lemma calculateHourlyBurnRate_sum (blocks : list CcusageBlock)
    (ct : DateTime) (r : Q) :
  calculateHourlyBurnRate host blocks ct = Ok r ->
  forallb (parsesCleanly host) blocks = true /\
  (r == fold_right (fun b acc => contribution_spec host (date ct) b + acc) 0
          blocks / 60)%Q.
Proof.
  intros Hcalc.
  assert (Hall : forallb (parsesCleanly host) blocks = true).
  { rewrite <- calculateHourlyBurnRate_isOk with (ct := ct). now rewrite Hcalc. }
  split; [exact Hall|].
  unfold calculateHourlyBurnRate in Hcalc. destruct blocks as [|b blocks].
  { injection Hcalc as <-. reflexivity. }
  set (bs := b :: blocks) in *.
  rewrite minus_one_hour in Hcalc.
  destruct (burnRateLoop_spec host
              {| date := date ct - 60 * msPerMinute; zoneName := zoneName ct |}
              ct bs eq_refl Hall 0%Q) as [total [Htotal Heq]].
  rewrite Htotal in Hcalc. cbn [bind] in Hcalc. injection Hcalc as <-.
  rewrite Qplus_0_l in Heq.
  destruct (Qgtb total 0) eqn:Hpos.
  - now rewrite Heq.
  - apply Qgtb_false in Hpos.
    pose proof (sum_contributions_nonneg host (date ct) bs) as Hnn.
    rewrite <- Heq in *.
    assert (Hz : (total == 0)%Q) by (apply Qle_antisym; assumption).
    rewrite Hz. reflexivity.
Qed.

Lemma contribution_spec_le_tokens (nowMs : Z) (b : CcusageBlock) :
  (contribution_spec host nowMs b
   <= inject_Z (Z.of_N (if truthy (isGap b) then 0 else orZero (totalTokens b))))%Q.
Proof.
  unfold contribution_spec.
  assert (Hnn : forall k : N, (0 <= inject_Z (Z.of_N k))%Q).
  { intros k. unfold Qle. simpl. lia. }
  destruct (truthy (isGap b)); [apply Qle_refl|].
  destruct (truthyStr (startTime b)) as [s|]; [|apply Hnn].
  destruct (Date_parse host s) as [start|]; [|apply Hnn].
  destruct (effectiveEnd_spec host nowMs b) as [e|]; [|apply Hnn].
  cbv zeta.
  destruct (e <? nowMs - 60 * msPerMinute); [apply Hnn|].
  destruct (Z.leb_spec (Z.min e nowMs - Z.max start (nowMs - 60 * msPerMinute)) 0)
    as [|Hov]; [apply Hnn|].
  destruct (Z.leb_spec (e - start) 0) as [|Hse]; [apply Hnn|].
  cbn [orb].
  set (tok := inject_Z (Z.of_N (orZero (totalTokens b)))).
  rewrite <- (Qmult_1_r tok) at 2.
  rewrite (Qmult_comm tok), (Qmult_comm tok 1).
  apply Qmult_le_compat_r; [|apply Hnn].
  apply Qle_shift_div_r.
  - unfold Qlt. cbn [Qnum Qden]. lia.
  - rewrite Qmult_1_l. unfold Qle. cbn [Qnum Qden]. lia.
Qed.

(** X14. The burn rate is never negative and never more than the
    tokens of all sessions (the blocks that are not gaps) spread over
    sixty minutes. *)
Theorem calculateHourlyBurnRate_bounds (blocks : list CcusageBlock)
    (currentTime : DateTime) (r : Q) :
  calculateHourlyBurnRate host blocks currentTime = Ok r ->
  (0 <= r)%Q /\
  (r <= inject_Z (Z.of_N (tokensOf (sessions blocks))) / 60)%Q.
Proof.
  intros Hcalc. split; [eapply calculateHourlyBurnRate_nonneg; eassumption|].
  destruct (calculateHourlyBurnRate_sum blocks currentTime r Hcalc) as [_ ->].
  apply Qmult_le_compat_r; [|discriminate].
  clear Hcalc. induction blocks as [|b blocks IH]; [apply Qle_refl|].
  cbn [fold_right]. unfold sessions in *. cbn [filter].
  pose proof (contribution_spec_le_tokens (date currentTime) b) as Hb.
  destruct (truthy (isGap b)); cbn [negb].
  - rewrite <- (Qplus_0_l (inject_Z _)).
    apply Qplus_le_compat; [exact Hb|exact IH].
  - cbn [tokensOf fold_right].
    fold (tokensOf (filter (fun b0 => negb (truthy (isGap b0))) blocks)).
    rewrite N2Z.inj_add, inject_Z_plus.
    apply Qplus_le_compat; [exact Hb|exact IH].
Qed.



End BurnRateMore.

(** X14, witness. *)
Lemma calculateHourlyBurnRate_bounds_witness :
  exists r,
    calculateHourlyBurnRate utcHost [activeSince0930; completed0800to0930]
      tenOClock = Ok r /\
    (0 <= r)%Q /\
    (r <= inject_Z
            (Z.of_N (tokensOf (sessions [activeSince0930; completed0800to0930])))
          / 60)%Q.
Proof.
  eexists. split; [vm_compute; reflexivity|].
  apply (calculateHourlyBurnRate_bounds utcHost
           [activeSince0930; completed0800to0930] tenOClock).
  vm_compute. reflexivity.
Defined.



(** ** core.ts: more on the reset time *)

Section ResetTimeMore.

Variable host : Host.




End ResetTimeMore.



(** ** mod.ts: more on one iteration and on the loop *)

Section TickMore.

Variable host : Host.


(** X20. On every plan but pro the stored limit never changes: after
    each iteration of any run it is the limit the run started with. *)
Theorem main_loop_constant (monitorOptions : MonitorOptions)
    (inputs : list TickInput) (tokenLimit : Z) :
  plan monitorOptions <> pro ->
  Forall (fun l => l = tokenLimit)
    (main_loop host monitorOptions tokenLimit inputs).
Proof.
  intros Hplan. induction inputs as [|input rest IH]; cbn [main_loop].
  - constructor.
  - assert (Hfst : fst (main_tick host monitorOptions tokenLimit input)
                   = tokenLimit).
    { unfold main_tick.
      destruct (fetched input) as [data|]; [|reflexivity].
      destruct (find _ (blocks data)); [|reflexivity].
      cbn [fst]. unfold main_switchLimit.
      destruct (plan monitorOptions); try contradiction;
        cbn [PlanType_eqb]; rewrite andb_false_r; reflexivity. }
    destruct (main_tick host monitorOptions tokenLimit input)
      as [tokenLimit' outcome].
    cbn [fst] in Hfst. subst tokenLimit'.
    constructor; [reflexivity|].
    destruct (isOk outcome); [exact IH|constructor].
Qed.

(** What an iteration that reaches the display shows besides: the
    elapsed minutes and the two warnings. *)
Lemma main_tick_displayed_more (monitorOptions : MonitorOptions)
    (tokenLimit tokenLimit' : Z) (input : TickInput) (s : Snapshot)
    (data : CcusageData) (activeBlock : CcusageBlock) :
  fetched input = Some data ->
  find (fun block => truthy (isActive block)) (blocks data)
  = Some activeBlock ->
  main_tick host monitorOptions tokenLimit input
  = (tokenLimit', Ok (Displayed s)) ->
  elapsedMinutes s
  = match truthyStr (startTime activeBlock) with
    | Some str =>
        match Date_parse host str with
        | Some t => Qmake (clock input - t) 60000
        | None => 0%Q
        end
    | None => 0%Q
    end /\
  runsOutBeforeReset s
  = (valueOf (predictedEndTime s) <? valueOf (resetTime s)) /\
  showSwitchNotification s
  = ((tokensUsed s >? 7000) && PlanType_eqb (plan monitorOptions) pro
     && (tokenLimit' >? 7000)).
Proof.
  intros Hfetched Hfind. unfold main_tick. rewrite Hfetched, Hfind.
  intros [= <- Hout].
  destruct (truthyStr (startTime activeBlock)) as [str|].
  - unfold fromISO in Hout.
    destruct (Date_parse host str) as [t|] eqn:Hparse; [|discriminate].
    cbn [bind] in Hout.
    rewrite (tick_currentTime host
               {| date := t;
                  zoneName := if tzMatch str then Some (sysZone host) else None |}
               str (clock input)) in Hout
      by (unfold fromISO; now rewrite Hparse).
    cbn [bind fst snd] in Hout.
    destruct (calculateHourlyBurnRate host (blocks data) _); [|discriminate].
    cbn [bind] in Hout.
    destruct (getNextResetTime host _ _ _); [|discriminate].
    cbn [bind] in Hout. injection Hout as <-.
    cbn. repeat split.
  - cbn [bind fst snd] in Hout.
    destruct (calculateHourlyBurnRate host (blocks data) _); [|discriminate].
    cbn [bind] in Hout.
    destruct (getNextResetTime host _ _ _); [|discriminate].
    cbn [bind] in Hout. injection Hout as <-.
    cbn. repeat split.
Qed.

(** X21. On plan pro, an iteration raises the "exceeded" warning only
    when the active session has used more tokens than every completed
    session of the report and more than the stored limit; and the
    "will run out before reset" warning only when tokens are being
    burned and some are left. *)
Theorem warnings_meaning (monitorOptions : MonitorOptions)
    (tokenLimit tokenLimit' : Z) (input : TickInput) (s : Snapshot)
    (data : CcusageData) :
  fetched input = Some data ->
  main_tick host monitorOptions tokenLimit input
  = (tokenLimit', Ok (Displayed s)) ->
  (plan monitorOptions = pro ->
   showExceedNotification s = true ->
   tokenLimit < tokensUsed s /\
   Forall (fun t => t < tokensUsed s) (completedTokens (blocks data))) /\
  (runsOutBeforeReset s = true ->
   (0 < burnRate s)%Q /\ 0 < tokensLeft s).
Proof.
  intros Hfetched Htick.
  destruct (main_tick_displayed host monitorOptions tokenLimit tokenLimit'
              input s Htick)
    as (data' & active & Hf' & Hfind & Hused & Hlimit & _ & _ & _ & Hrate & _
        & Hpred & Hflag).
  rewrite Hfetched in Hf'. injection Hf' as <-.
  destruct (main_tick_displayed_more monitorOptions tokenLimit tokenLimit'
              input s data active Hfetched Hfind Htick) as (_ & Hruns & _).
  split.
  - intros Hplan Hshow. rewrite Hflag in Hshow. apply Z.gtb_lt in Hshow.
    pose proof (main_switchLimit_ge monitorOptions tokenLimit (tokensUsed s)
                  (blocks data)) as Hge.
    rewrite <- Hlimit in Hge.
    split; [lia|].
    unfold main_switchLimit in Hlimit. rewrite Hplan in Hlimit.
    replace (tokensUsed s >? tokenLimit) with true in Hlimit
      by (symmetry; apply Z.gtb_lt; lia).
    cbn [andb PlanType_eqb] in Hlimit.
    rewrite getTokenLimit_custom_max in Hlimit.
    pose proof (maxCount_upper (completedTokens (blocks data))) as Hup.
    pose proof (maxCount_nonneg (completedTokens (blocks data))) as Hnn.
    eapply Forall_impl; [|exact Hup]. cbv beta. intros t Ht.
    set (m := maxCount (completedTokens (blocks data))) in *.
    destruct (Z.eqb_spec m 0) as [Hm|Hm].
    + destruct (Z.gtb_spec 7000 tokenLimit); lia.
    + destruct (Z.gtb_spec m tokenLimit); lia.
  - intros Hr. rewrite Hruns, Hpred in Hr.
    unfold main_predictedEndTime in Hr.
    destruct (Qgtb (burnRate s) 0) eqn:Hb; cbn [andb] in Hr.
    + destruct (Z.gtb_spec (tokensLeft s) 0).
      * split; [now apply Qgtb_true|lia].
      * apply Z.ltb_lt in Hr. lia.
    + apply Z.ltb_lt in Hr. lia.
Qed.

End TickMore.

(** X20, witness: plan max5. *)
Lemma main_loop_constant_witness :
  Forall (fun l => l = 35000)
    (main_loop utcHost
       {| plan := max5; resetHour := None; timezone := "UTC" |} 35000
       [tickAtTen [completed50000; active8000]; tickAtTen [active8000]]).
Proof.
  apply (main_loop_constant utcHost
           {| plan := max5; resetHour := None; timezone := "UTC" |}).
  discriminate.
Defined.

(** X21, witness: the iteration of 8000 tokens against a completed
    session of 7500. *)
Lemma warnings_meaning_witness :
  exists s,
    main_tick utcHost proOptions 7000 (tickAtTen [completed7500; active8000])
    = (7500, Ok (Displayed s)) /\
    (plan proOptions = pro ->
     showExceedNotification s = true ->
     7000 < tokensUsed s /\
     Forall (fun t => t < tokensUsed s)
       (completedTokens [completed7500; active8000])) /\
    (runsOutBeforeReset s = true ->
     (0 < burnRate s)%Q /\ 0 < tokensLeft s).
Proof.
  eexists. split; [vm_compute; reflexivity|].
  apply (warnings_meaning utcHost proOptions 7000 7500
           (tickAtTen [completed7500; active8000]) _
           {| blocks := [completed7500; active8000] |}).
  - reflexivity.
  - vm_compute. reflexivity.
Defined.

(** ** utils.ts: the bars *)

Lemma filled_range (width : Z) (p : Q) :
  0 <= width -> (0 <= p)%Q -> (p <= 100)%Q ->
  0 <= Qfloor (inject_Z width * p / 100) <= width.
Proof.
  intros Hw H0 H100.
  assert (Hwq : (0 <= inject_Z width)%Q) by (unfold Qle; simpl; lia).
  split.
  - change 0 with (Qfloor 0). apply Qfloor_resp_le.
    apply Qle_shift_div_l; [reflexivity|].
    rewrite Qmult_0_l. now apply Qmult_le_0_compat.
  - rewrite <- (Qfloor_Z width) at 2. apply Qfloor_resp_le.
    apply Qle_shift_div_r; [reflexivity|].
    rewrite (Qmult_comm (inject_Z width) p), (Qmult_comm (inject_Z width) 100).
    now apply Qmult_le_compat_r.
Qed.

Lemma filled_negative (width : Z) (p : Q) :
  0 < width -> (p < 0)%Q -> Qfloor (inject_Z width * p / 100) < 0.
Proof.
  intros Hw Hp.
  assert (Hneg : (inject_Z width * p / 100 < 0)%Q).
  { apply Qlt_shift_div_r; [reflexivity|]. rewrite Qmult_0_l.
    destruct p as [n d]. unfold Qlt in *. cbn [Qnum Qden inject_Z Qmult] in *.
    nia. }
  pose proof (Qfloor_le (inject_Z width * p / 100)) as Hle.
  assert (Hlt : (inject_Z (Qfloor (inject_Z width * p / 100)) < 0)%Q)
    by (eapply Qle_lt_trans; eassumption).
  unfold Qlt in Hlt. cbn [Qnum Qden inject_Z] in Hlt. lia.
Qed.

Lemma clamp_range (p : Q) :
  (0 <= Math_max 0 (Math_min 100 p))%Q /\
  (Math_max 0 (Math_min 100 p) <= 100)%Q /\
  ((p <= 0)%Q -> (Math_max 0 (Math_min 100 p) == 0)%Q) /\
  ((100 <= p)%Q -> (Math_max 0 (Math_min 100 p) == 100)%Q).
Proof.
  unfold Math_max, Math_min.
  destruct (Qle_bool 100 p) eqn:H100.
  - apply Qle_bool_iff in H100. change (Qle_bool 0 100) with true. cbv iota.
    repeat split; try discriminate; try reflexivity.
    intros Hp. exfalso.
    assert (H : (100 <= 0)%Q) by (eapply Qle_trans; eassumption).
    unfold Qle in H. cbn in H. lia.
  - assert (Hlt : (p < 100)%Q).
    { apply Qnot_le_lt. intros H. apply Qle_bool_iff in H. congruence. }
    destruct (Qle_bool 0 p) eqn:H0.
    + apply Qle_bool_iff in H0. repeat split.
      * exact H0.
      * now apply Qlt_le_weak.
      * intros Hp. now apply Qle_antisym.
      * intros Hp. exfalso. now apply (Qlt_not_le p 100).
    + repeat split; try apply Qle_refl; try discriminate; try reflexivity.
      intros Hp. exfalso. now apply (Qlt_not_le p 100).
Qed.

Lemma createTokenProgressBar_filled (percentage : Q) (width : Z) :
  0 <= width ->
  0 <= Qfloor (inject_Z width * Math_max 0 (Math_min 100 percentage) / 100)
  <= width /\
  createTokenProgressBar percentage width
  = Normal
      {| greenBar :=
           String.concat EmptyString
             (List.repeat fullCell
                (Z.to_nat
                   (Qfloor (inject_Z width
                            * Math_max 0 (Math_min 100 percentage) / 100))));
         tokenRedBar :=
           String.concat EmptyString
             (List.repeat shadeCell
                (Z.to_nat
                   (width
                    - Qfloor (inject_Z width
                              * Math_max 0 (Math_min 100 percentage) / 100)))) |}.
Proof.
  intros Hw.
  destruct (clamp_range percentage) as (H0 & H100 & _).
  pose proof (filled_range width _ Hw H0 H100) as Hrange.
  split; [exact Hrange|].
  unfold createTokenProgressBar, String_repeat.
  set (filled := Qfloor (inject_Z width
                         * Math_max 0 (Math_min 100 percentage) / 100)) in *.
  replace (filled <? 0) with false by (symmetry; apply Z.ltb_ge; lia).
  cbn [andThen].
  replace (width - filled <? 0) with false by (symmetry; apply Z.ltb_ge; lia).
  reflexivity.
Qed.

(** X22. [createTokenProgressBar] never throws for a width that is not
    negative, whatever the percentage: the two bars have [width] cells
    together, none of them full for a percentage of 0 or less, all of
    them full for 100 or more. *)
Theorem createTokenProgressBar_cells (percentage : Q) (width : Z) :
  0 <= width ->
  exists filled,
    0 <= filled <= width /\
    createTokenProgressBar percentage width
    = Normal
        {| greenBar :=
             String.concat EmptyString (List.repeat fullCell (Z.to_nat filled));
           tokenRedBar :=
             String.concat EmptyString
               (List.repeat shadeCell (Z.to_nat (width - filled))) |} /\
    ((percentage <= 0)%Q -> filled = 0) /\
    ((100 <= percentage)%Q -> filled = width).
Proof.
  intros Hw.
  destruct (createTokenProgressBar_filled percentage width Hw) as [Hrange Hbar].
  destruct (clamp_range percentage) as (_ & _ & Hlow & Hhigh).
  eexists. split; [exact Hrange|]. split; [exact Hbar|]. split.
  - intros Hp. rewrite (Qfloor_comp _ 0); [reflexivity|].
    rewrite (Hlow Hp). unfold Qdiv. now rewrite Qmult_0_r, Qmult_0_l.
  - intros Hp. rewrite (Qfloor_comp _ (inject_Z width)); [apply Qfloor_Z|].
    rewrite (Hhigh Hp). field.
Qed.

Lemma createTimeProgressBar_normal_iff (elapsedMinutes totalMinutes : Q)
    (width : Z) :
  (0 < totalMinutes)%Q -> 0 < width ->
  isNormal (createTimeProgressBar elapsedMinutes totalMinutes width)
  = Qle_bool 0 elapsedMinutes.
Proof.
  intros Htotal Hw. unfold createTimeProgressBar.
  assert (Ht : Qle_bool totalMinutes 0 = false).
  { destruct (Qle_bool totalMinutes 0) eqn:H; [|reflexivity].
    apply Qle_bool_iff in H. exfalso. now apply (Qlt_not_le 0 totalMinutes). }
  rewrite Ht.
  set (x := (elapsedMinutes / totalMinutes * 100)%Q).
  destruct (Qle_bool 0 elapsedMinutes) eqn:He.
  - apply Qle_bool_iff in He.
    assert (Hx : (0 <= x)%Q).
    { unfold x. apply Qmult_le_0_compat; [|discriminate].
      apply Qle_shift_div_l; [exact Htotal|]. now rewrite Qmult_0_l. }
    assert (Hp : (0 <= Math_min 100 x)%Q /\ (Math_min 100 x <= 100)%Q).
    { unfold Math_min. destruct (Qle_bool 100 x) eqn:H100.
      - split; [discriminate|apply Qle_refl].
      - split; [exact Hx|]. apply Qlt_le_weak. apply Qnot_le_lt.
        intros H. apply Qle_bool_iff in H. congruence. }
    destruct Hp as [Hp0 Hp100].
    pose proof (filled_range width (Math_min 100 x) ltac:(lia) Hp0 Hp100)
      as Hrange.
    unfold String_repeat.
    replace (Qfloor (inject_Z width * Math_min 100 x / 100) <? 0) with false
      by (symmetry; apply Z.ltb_ge; lia).
    cbn [andThen].
    replace (width - Qfloor (inject_Z width * Math_min 100 x / 100) <? 0)
      with false by (symmetry; apply Z.ltb_ge; lia).
    reflexivity.
  - assert (Hneg : (elapsedMinutes < 0)%Q).
    { apply Qnot_le_lt. intros H. apply Qle_bool_iff in H. congruence. }
    assert (Hx : (x < 0)%Q).
    { unfold x. setoid_replace 0%Q with (0 * 100)%Q by reflexivity.
      apply Qmult_lt_compat_r; [reflexivity|].
      apply Qlt_shift_div_r; [exact Htotal|]. now rewrite Qmult_0_l. }
    assert (Hmin : Math_min 100 x = x).
    { unfold Math_min. destruct (Qle_bool 100 x) eqn:H100; [|reflexivity].
      apply Qle_bool_iff in H100. exfalso.
      apply (Qlt_not_le x 0 Hx). eapply Qle_trans; [|exact H100]. discriminate. }
    rewrite Hmin.
    pose proof (filled_negative width x Hw Hx) as Hf.
    unfold String_repeat.
    replace (Qfloor (inject_Z width * x / 100) <? 0) with true
      by (symmetry; apply Z.ltb_lt; lia).
    reflexivity.
Qed.

(** X23. With a positive total and a positive width,
    [createTimeProgressBar] throws exactly when the elapsed minutes are
    negative: the percentage is capped at 100 but not held at 0, and
    [repeat] rejects the negative number of cells with a RangeError. *)
Theorem createTimeProgressBar_isNormal (elapsedMinutes totalMinutes : Q)
    (width : Z) :
  (0 < totalMinutes)%Q -> 0 < width ->
  isNormal (createTimeProgressBar elapsedMinutes totalMinutes width)
  = Qle_bool 0 elapsedMinutes /\
  ((elapsedMinutes < 0)%Q ->
   exists count,
     count < 0 /\
     createTimeProgressBar elapsedMinutes totalMinutes width
     = Abrupt (InvalidCount count)).
Proof.
  intros Htotal Hw.
  pose proof (createTimeProgressBar_normal_iff elapsedMinutes totalMinutes
                width Htotal Hw) as Hiff.
  split; [exact Hiff|].
  intros Hneg.
  assert (Hb : Qle_bool 0 elapsedMinutes = false).
  { destruct (Qle_bool 0 elapsedMinutes) eqn:H; [|reflexivity].
    apply Qle_bool_iff in H. exfalso. now apply (Qlt_not_le _ _ Hneg). }
  rewrite Hb in Hiff. unfold createTimeProgressBar, String_repeat in *.
  set (filled := Qfloor _) in *.
  destruct (Z.ltb_spec filled 0) as [Hlt|Hge].
  - exists filled. split; [exact Hlt|reflexivity].
  - cbn [andThen] in Hiff.
    destruct (width - filled <? 0) eqn:Hred.
    + exfalso. apply Z.ltb_lt in Hred.
      assert (Hp : (inject_Z filled <= inject_Z width)%Q).
      { unfold filled. eapply Qle_trans; [apply Qfloor_le|].
        apply Qle_shift_div_r; [reflexivity|].
        rewrite (Qmult_comm (inject_Z width) 100).
        rewrite (Qmult_comm (inject_Z width)).
        apply Qmult_le_compat_r; [|unfold Qle; simpl; lia].
        destruct (Qle_bool totalMinutes 0); [discriminate|].
        unfold Math_min.
        destruct (Qle_bool 100 (elapsedMinutes / totalMinutes * 100)) eqn:H100;
          [apply Qle_refl|].
        apply Qlt_le_weak. apply Qnot_le_lt.
        intros H. apply Qle_bool_iff in H. congruence. }
      unfold Qle in Hp. cbn [Qnum Qden inject_Z] in Hp. lia.
    + cbn [andThen isNormal] in Hiff. discriminate Hiff.
Qed.

Section BarsOfTheLoop.

Variable host : Host.

(** X24. The bars of an iteration are drawn without exception exactly
    when the active block did not start after the clock reading: with a
    start in the future the elapsed minutes are negative and drawing
    the time bar throws. *)
Theorem main_bars_isNormal (monitorOptions : MonitorOptions)
    (tokenLimit tokenLimit' : Z) (input : TickInput) (s : Snapshot)
    (data : CcusageData) (activeBlock : CcusageBlock) (str : string) (t : Z) :
  fetched input = Some data ->
  find (fun block => truthy (isActive block)) (blocks data)
  = Some activeBlock ->
  truthyStr (startTime activeBlock) = Some str ->
  Date_parse host str = Some t ->
  main_tick host monitorOptions tokenLimit input
  = (tokenLimit', Ok (Displayed s)) ->
  isNormal (main_bars s) = (t <=? clock input).
Proof.
  intros Hfetched Hfind Hstr Hparse Htick.
  destruct (main_tick_displayed_more host monitorOptions tokenLimit tokenLimit'
              input s data activeBlock Hfetched Hfind Htick) as (Hel & _ & _).
  rewrite Hstr, Hparse in Hel.
  unfold main_bars.
  destruct (createTokenProgressBar_filled (usagePercentage s) 50 ltac:(lia))
    as [_ ->].
  cbn [andThen].
  pose proof (createTimeProgressBar_normal_iff (elapsedMinutes s) 300 50
                eq_refl eq_refl) as Htime.
  destruct (createTimeProgressBar (elapsedMinutes s) 300 50); cbn [andThen];
    cbn [isNormal] in *; rewrite Htime, Hel;
    unfold Qle_bool; cbn [Qnum Qden];
    destruct (Z.leb_spec (0 * 60000) ((clock input - t) * 1)),
      (Z.leb_spec t (clock input)); try reflexivity; lia.
Qed.

End BarsOfTheLoop.

(** X22, witness. *)
Lemma createTokenProgressBar_cells_witness :
  exists filled,
    0 <= filled <= 50 /\
    createTokenProgressBar (114 # 1) 50
    = Normal
        {| greenBar :=
             String.concat EmptyString (List.repeat fullCell (Z.to_nat filled));
           tokenRedBar :=
             String.concat EmptyString
               (List.repeat shadeCell (Z.to_nat (50 - filled))) |} /\
    ((114 # 1 <= 0)%Q -> filled = 0) /\
    ((100 <= 114 # 1)%Q -> filled = 50).
Proof.
  apply (createTokenProgressBar_cells (114 # 1) 50). lia.
Defined.

(** X23, witness: a tenth of a minute before the start. *)
Lemma createTimeProgressBar_isNormal_witness :
  isNormal (createTimeProgressBar (- (1 # 10)) 300 50)
  = Qle_bool 0 (- (1 # 10)) /\
  ((- (1 # 10) < 0)%Q ->
   exists count,
     count < 0 /\
     createTimeProgressBar (- (1 # 10)) 300 50 = Abrupt (InvalidCount count)).
Proof.
  apply (createTimeProgressBar_isNormal (- (1 # 10)) 300 50); reflexivity.
Defined.

(** X24, witness: at nine o'clock the block that starts at 09:30 lies
    in the future, and the bars of the iteration are not drawn. *)
Lemma main_bars_isNormal_witness :
  exists s,
    main_tick utcHost proOptions 7000 (tickAtNine [activeSince0930])
    = (7000, Ok (Displayed s)) /\
    isNormal (main_bars s) = false.
Proof.
  eexists. split; [vm_compute; reflexivity|].
  apply (main_bars_isNormal utcHost proOptions 7000 7000
           (tickAtNine [activeSince0930]) _
           {| blocks := [activeSince0930] |} activeSince0930
           "2024-01-01T09:30:00.000Z" (t_2024_01_01 9 30 0));
    vm_compute; reflexivity.
Defined.

(** ** utils.ts: formatTime *)

Lemma Qfloor_plus_Z (x : Q) (k : Z) : Qfloor (x + inject_Z k) = Qfloor x + k.
Proof.
  destruct x as [a b]. unfold Qfloor, Qplus, inject_Z. cbn [Qnum Qden].
  rewrite Pos.mul_1_r, Z.mul_1_r.
  rewrite Z.div_add by lia. reflexivity.
Qed.

Lemma Qfloor_div_60 (x : Q) : Qfloor (x / 60) = Qfloor x / 60.
Proof.
  destruct x as [a b]. unfold Qfloor, Qdiv, Qmult, Qinv. cbn [Qnum Qden].
  rewrite Z.mul_1_r, Pos2Z.inj_mul, Z.div_div by lia. reflexivity.
Qed.

Lemma ToInteger_nonneg (x : Q) : (0 <= x)%Q -> ToInteger x = Qfloor x.
Proof.
  destruct x as [a b]. unfold ToInteger, Qfloor, Qle. cbn [Qnum Qden].
  intros Ha. apply Z.quot_div_nonneg; lia.
Qed.

(** X25. For a number of minutes that is not negative, [formatTime]
    shows the whole minutes only: below 60 as "Nm", from 60 on as the
    whole hours followed by the minutes left over, which are omitted
    when there are none. *)
Theorem formatTime_whole_minutes (minutes : Q) :
  (0 <= minutes)%Q ->
  let n := Qfloor minutes in
  0 <= n /\
  formatTime minutes
  = if n <? 60 then (Number_toString n ++ "m")%string
    else if n mod 60 =? 0 then (Number_toString (n / 60) ++ "h")%string
    else (Number_toString (n / 60) ++ "h " ++ Number_toString (n mod 60)
          ++ "m")%string.
Proof.
  intros Hnn n.
  assert (Hn0 : 0 <= n).
  { unfold n. change 0 with (Qfloor 0). now apply Qfloor_resp_le. }
  split; [exact Hn0|].
  unfold formatTime.
  assert (Hlt : Qltb minutes 60 = (n <? 60)).
  { unfold Qltb.
    destruct (Qle_bool 60 minutes) eqn:H60; cbn [negb]; symmetry.
    - apply Qle_bool_iff in H60. apply Z.ltb_ge.
      change 60 with (Qfloor 60). now apply Qfloor_resp_le.
    - apply Z.ltb_lt.
      assert (Hm : (minutes < 60)%Q).
      { apply Qnot_le_lt. intros H. apply Qle_bool_iff in H. congruence. }
      pose proof (Qfloor_le minutes) as Hfl. fold n in Hfl.
      assert (Hq : (inject_Z n < 60)%Q) by (eapply Qle_lt_trans; eassumption).
      unfold Qlt in Hq. cbn [Qnum Qden inject_Z] in Hq. lia. }
  rewrite Hlt. destruct (n <? 60); [reflexivity|].
  rewrite Qfloor_div_60. fold n.
  assert (Hrem : Qfloor (Number_rem minutes 60) = n mod 60).
  { unfold Number_rem. rewrite ToInteger_nonneg.
    - rewrite Qfloor_div_60. fold n.
      assert (Heq : (minutes - 60 * inject_Z (n / 60)
                     == minutes + inject_Z (- (60 * (n / 60))))%Q).
      { rewrite inject_Z_opp, inject_Z_mult. reflexivity. }
      rewrite (Qfloor_comp _ _ Heq), Qfloor_plus_Z. fold n.
      pose proof (Z.div_mod n 60 ltac:(lia)). lia.
    - apply Qle_shift_div_l; [reflexivity|]. now rewrite Qmult_0_l. }
  rewrite Hrem. reflexivity.
Qed.

(** X25, witness: 269.5 minutes. *)
Lemma formatTime_whole_minutes_witness :
  let n := Qfloor (2695 # 10) in
  0 <= n /\
  formatTime (2695 # 10)
  = if n <? 60 then (Number_toString n ++ "m")%string
    else if n mod 60 =? 0 then (Number_toString (n / 60) ++ "h")%string
    else (Number_toString (n / 60) ++ "h " ++ Number_toString (n mod 60)
          ++ "m")%string.
Proof.
  apply (formatTime_whole_minutes (2695 # 10)). discriminate.
Defined.

(** ** args.ts *)

Section CommandLineProperties.

Variable host : Host.
Variable parseInt : string -> option Z.

Lemma checkedHour_range (v : string) (hour : Z) :
  checkedHour parseInt v = Some hour -> 0 <= hour <= 23.
Proof.
  unfold checkedHour. destruct (parseInt v) as [h|]; [|discriminate].
  destruct (Z.leb_spec 0 h), (Z.leb_spec h 23); cbn [andb];
    try discriminate.
  intros [= <-]. lia.
Qed.

Lemma parseArgs_step_exit (arg : string) (nextArg : option string)
    (result : ParsedArgs) (code : Z) :
  parseArgs_step parseInt arg nextArg result = Exit code -> code = 1.
Proof.
  unfold parseArgs_step.
  repeat match goal with
         | |- context [if ?c then _ else _] => destruct c
         | |- context [match flagValue ?n with _ => _ end] =>
             destruct (flagValue n)
         | |- context [match checkedHour ?p ?v with _ => _ end] =>
             destruct (checkedHour p v)
         end; intros H; try discriminate H; now injection H.
Qed.

Lemma parseArgs_step_consumes (arg : string) (nextArg : option string)
    (result result' : ParsedArgs) :
  parseArgs_step parseInt arg nextArg result = Continue (result', true) ->
  exists v, flagValue nextArg = Some v.
Proof.
  unfold parseArgs_step.
  repeat match goal with
         | |- context [if ?c then _ else _] => destruct c
         | |- context [match flagValue ?n with _ => _ end] =>
             destruct (flagValue n) eqn:?
         | |- context [match checkedHour ?p ?v with _ => _ end] =>
             destruct (checkedHour p v)
         end; intros H; try discriminate H; eauto.
Qed.

Lemma parseArgs_step_hour (arg : string) (nextArg : option string)
    (result result' : ParsedArgs) (consumed : bool) :
  parseArgs_step parseInt arg nextArg result = Continue (result', consumed) ->
  (forall h, arg_resetHour result = Some h -> 0 <= h <= 23) ->
  forall h, arg_resetHour result' = Some h -> 0 <= h <= 23.
Proof.
  unfold parseArgs_step. intros Hstep Hold.
  repeat match type of Hstep with
         | context [if ?c then _ else _] => destruct c
         | context [match flagValue ?n with _ => _ end] =>
             destruct (flagValue n)
         | context [match checkedHour ?p ?v with _ => _ end] =>
             destruct (checkedHour p v) eqn:?
         end; try discriminate Hstep;
    injection Hstep as <- _; cbn [arg_resetHour]; try exact Hold;
    intros h [= <-]; eapply checkedHour_range; eassumption.
Qed.

Lemma parseArgs_loop_hour (n : nat) :
  forall args result result',
    (List.length args <= n)%nat ->
    parseArgs_loop parseInt args result = Continue result' ->
    (forall h, arg_resetHour result = Some h -> 0 <= h <= 23) ->
    forall h, arg_resetHour result' = Some h -> 0 <= h <= 23.
Proof.
  induction n as [|n IH]; intros args result result' Hlen Hloop Hold.
  - destruct args; [|cbn in Hlen; lia]. injection Hloop as <-. exact Hold.
  - destruct args as [|arg rest]; [injection Hloop as <-; exact Hold|].
    cbn [parseArgs_loop] in Hloop. cbn [List.length] in Hlen.
    destruct (parseArgs_step parseInt arg (hd_error rest) result)
      as [[r1 consumed]|code] eqn:Hstep; [|discriminate].
    pose proof (parseArgs_step_hour _ _ _ _ _ Hstep Hold) as H1.
    destruct consumed.
    + destruct rest as [|v rest'].
      * injection Hloop as <-. exact H1.
      * cbn [List.length] in Hlen.
        apply (IH rest' r1 result'); [lia|exact Hloop|exact H1].
    + apply (IH rest r1 result'); [lia|exact Hloop|exact H1].
Qed.

(** X26. When the reading of the command line lets the run start, the
    plan is one of the four plans, so that [getTokenLimit] is never
    asked for an unknown one, and the reset hour, when one was given,
    lies in 0..23. *)
Theorem main_options_valid (argv : list string) (options : MonitorOptions) :
  main_options host parseInt argv = Continue options ->
  In (plan options) [pro; max5; max20; custom_max] /\
  In (getTokenLimit (plan options) None) [7000; 35000; 140000] /\
  forall h, resetHour options = Some h -> 0 <= h <= 23.
Proof.
  unfold main_options, parseArgs.
  destruct (parseArgs_loop parseInt argv _) as [args|] eqn:Hloop;
    [|discriminate].
  destruct (arg_help args); [discriminate|].
  destruct (arg_version args); [discriminate|].
  unfold validateArgs.
  destruct (existsb (String.eqb (arg_plan args)) validPlans) eqn:Hvalid;
    [|discriminate].
  intros [= <-]. cbn [plan resetHour].
  assert (Hplan : In (planOfString (arg_plan args)) [pro; max5; max20; custom_max]).
  { unfold validPlans in Hvalid. cbn [existsb] in Hvalid. unfold planOfString.
    destruct (String.eqb (arg_plan args) "pro"); [cbn; auto|].
    destruct (String.eqb (arg_plan args) "max5"); [cbn; auto|].
    destruct (String.eqb (arg_plan args) "max20"); [cbn; auto|].
    destruct (String.eqb (arg_plan args) "custom_max"); [cbn; auto|].
    discriminate. }
  split; [exact Hplan|]. split.
  - cbn [In] in Hplan.
    destruct Hplan as [<-|[<-|[<-|[<-|[]]]]]; cbn; auto.
  - eapply (parseArgs_loop_hour (List.length argv)); [reflexivity|exact Hloop|].
    cbn [arg_resetHour]. discriminate.
Qed.

Lemma parseArgs_step_unknown (arg : string) (nextArg : option string)
    (result : ParsedArgs) :
  String.prefix "-" arg = true ->
  isKnownFlag arg = false ->
  parseArgs_step parseInt arg nextArg result = Exit 1.
Proof.
  intros Hdash Hknown. unfold isKnownFlag in Hknown.
  cbn [existsb] in Hknown.
  repeat match type of Hknown with
         | (_ || _) = false =>
             apply orb_false_iff in Hknown;
             let H := fresh "Hk" in destruct Hknown as [H Hknown]
         end.
  repeat match goal with
         | H : (_ || _) = false |- _ =>
             apply orb_false_iff in H;
             let H1 := fresh "Hk" in destruct H as [H1 H]
         end.
  unfold parseArgs_step.
  repeat match goal with
         | H : ?c = false |- context [?c] => rewrite H
         end.
  cbn [orb]. rewrite Hdash. cbn [andb].
  destruct (String.prefix "--" arg); reflexivity.
Qed.

Lemma flagValue_not_dash (nextArg : option string) (v : string) :
  flagValue nextArg = Some v ->
  nextArg = Some v /\ String.prefix "-" v = false.
Proof.
  unfold flagValue. destruct nextArg as [[|c s]|]; cbn [truthyStr];
    try discriminate.
  destruct (String.prefix "-" (String c s)) eqn:Hp; [discriminate|].
  intros [= <-]. auto.
Qed.

Lemma parseArgs_loop_unknown (n : nat) (unknown : string) :
  String.prefix "-" unknown = true ->
  isKnownFlag unknown = false ->
  forall args result,
    (List.length args <= n)%nat ->
    In unknown args ->
    parseArgs_loop parseInt args result = Exit 1.
Proof.
  intros Hdash Hknown.
  induction n as [|n IH]; intros args result Hlen Hin.
  - destruct args; [destruct Hin|cbn in Hlen; lia].
  - destruct args as [|arg rest]; [destruct Hin|].
    cbn [parseArgs_loop]. cbn [List.length] in Hlen.
    destruct Hin as [->|Hin].
    { now rewrite parseArgs_step_unknown. }
    destruct (parseArgs_step parseInt arg (hd_error rest) result)
      as [[r1 consumed]|code] eqn:Hstep.
    + destruct consumed.
      * destruct (parseArgs_step_consumes _ _ _ _ Hstep) as [v Hv].
        apply flagValue_not_dash in Hv. destruct Hv as [Hhd Hnd].
        destruct rest as [|v' rest']; [discriminate|].
        cbn [hd_error] in Hhd. injection Hhd as ->.
        destruct Hin as [->|Hin]; [congruence|].
        cbn [List.length] in Hlen. apply IH; [lia|exact Hin].
      * apply IH; [lia|exact Hin].
    + now rewrite (parseArgs_step_exit _ _ _ _ Hstep).
Qed.

(** X27. An argument that starts with a dash and is none of the flags
    [parseArgs] knows is never passed over, wherever it stands on the
    command line: the reading ends the process with code 1. *)
Theorem parseArgs_unknown_flag (args : list string) (unknown : string) :
  In unknown args ->
  String.prefix "-" unknown = true ->
  isKnownFlag unknown = false ->
  parseArgs host parseInt args = Exit 1 /\
  main_options host parseInt args = Exit 1.
Proof.
  intros Hin Hdash Hknown.
  assert (Hparse : parseArgs host parseInt args = Exit 1).
  { unfold parseArgs.
    apply (parseArgs_loop_unknown (List.length args) unknown);
      auto. }
  split; [exact Hparse|]. unfold main_options. now rewrite Hparse.
Qed.

End CommandLineProperties.

(** X26, witness. *)
Lemma main_options_valid_witness :
  In (plan {| plan := max5; resetHour := Some 9; timezone := "Asia/Tokyo" |})
    [pro; max5; max20; custom_max] /\
  In (getTokenLimit
        (plan {| plan := max5; resetHour := Some 9; timezone := "Asia/Tokyo" |})
        None) [7000; 35000; 140000] /\
  forall h,
    resetHour {| plan := max5; resetHour := Some 9; timezone := "Asia/Tokyo" |}
    = Some h -> 0 <= h <= 23.
Proof.
  apply (main_options_valid utcHost sampleParseInt
           ["--plan"; "max5"; "-r"; "9"; "--timezone=Asia/Tokyo"]).
  vm_compute. reflexivity.
Defined.

(** X27, witness: a negative reset hour given as a separate argument is
    read as an unknown flag. *)
Lemma parseArgs_unknown_flag_witness :
  parseArgs utcHost sampleParseInt ["--plan"; "max5"; "--reset-hour"; "-5"]
  = Exit 1 /\
  main_options utcHost sampleParseInt ["--plan"; "max5"; "--reset-hour"; "-5"]
  = Exit 1.
Proof.
  apply (parseArgs_unknown_flag utcHost sampleParseInt
           ["--plan"; "max5"; "--reset-hour"; "-5"] "-5").
  - cbn. auto.
  - reflexivity.
  - reflexivity.
Defined.

Section CommandLineOrder.

Variable host : Host.
Variable parseInt : string -> option Z.

Lemma parseArgs_step_next (arg : string) (next1 next2 : option string)
    (result : ParsedArgs) :
  flagValue next1 = flagValue next2 ->
  parseArgs_step parseInt arg next1 result
  = parseArgs_step parseInt arg next2 result.
Proof. intros H. unfold parseArgs_step. now rewrite H. Qed.

Lemma parseArgs_loop_last_plan (n : nat) (v : string) :
  flagValue (Some v) = Some v ->
  forall args result,
    (List.length args <= n)%nat ->
    parseArgs_loop parseInt (args ++ ["--plan"; v]) result
    = match parseArgs_loop parseInt args result with
      | Exit code => Exit code
      | Continue r =>
          Continue {| arg_plan := v; arg_resetHour := arg_resetHour r;
                      arg_timezone := arg_timezone r; arg_help := arg_help r;
                      arg_version := arg_version r |}
      end.
Proof.
  intros Hv. induction n as [|n IH]; intros args result Hlen.
  - destruct args; [|cbn in Hlen; lia].
    cbn [app parseArgs_loop hd_error]. unfold parseArgs_step.
    change (String.eqb "--plan" "--plan" || String.eqb "--plan" "-p") with true.
    cbv iota. rewrite Hv. reflexivity.
  - destruct args as [|arg rest].
    { cbn [app parseArgs_loop hd_error]. unfold parseArgs_step.
      change (String.eqb "--plan" "--plan" || String.eqb "--plan" "-p") with true.
      cbv iota. rewrite Hv. reflexivity. }
    cbn [List.length] in Hlen. cbn [app parseArgs_loop].
    assert (Hnext : flagValue (hd_error (rest ++ ["--plan"; v]))
                    = flagValue (hd_error rest)).
    { destruct rest; reflexivity. }
    rewrite (parseArgs_step_next arg _ _ result Hnext).
    destruct (parseArgs_step parseInt arg (hd_error rest) result)
      as [[r1 consumed]|code] eqn:Hstep; [|reflexivity].
    destruct consumed.
    + destruct (parseArgs_step_consumes _ _ _ _ _ Hstep) as [w Hw].
      destruct rest as [|v' rest']; [discriminate|].
      cbn [app List.length] in *. apply IH. lia.
    + apply IH. lia.
Qed.

(** X28. A plan given with [--plan] at the end of the command line
    replaces whatever plan the arguments before it set, and changes
    nothing else: a flag before it that waits for a value does not take
    it as its value, and an error before it still ends the process. *)
Theorem parseArgs_last_plan (args : list string) (v : string) :
  flagValue (Some v) = Some v ->
  parseArgs host parseInt (args ++ ["--plan"; v])
  = match parseArgs host parseInt args with
    | Exit code => Exit code
    | Continue r =>
        Continue {| arg_plan := v; arg_resetHour := arg_resetHour r;
                    arg_timezone := arg_timezone r; arg_help := arg_help r;
                    arg_version := arg_version r |}
    end.
Proof.
  intros Hv. unfold parseArgs.
  apply (parseArgs_loop_last_plan (List.length args) v Hv). reflexivity.
Qed.

End CommandLineOrder.

(** X28, witness: the dangling [-t] does not swallow [--plan]. *)
Lemma parseArgs_last_plan_witness :
  parseArgs utcHost sampleParseInt (["-p"; "max5"; "-t"] ++ ["--plan"; "max20"])
  = match parseArgs utcHost sampleParseInt ["-p"; "max5"; "-t"] with
    | Exit code => Exit code
    | Continue r =>
        Continue {| arg_plan := "max20"; arg_resetHour := arg_resetHour r;
                    arg_timezone := arg_timezone r; arg_help := arg_help r;
                    arg_version := arg_version r |}
    end.
Proof.
  apply (parseArgs_last_plan utcHost sampleParseInt ["-p"; "max5"; "-t"] "max20").
  reflexivity.
Defined.

(** ** mod.ts: the limit is positive *)

Section PositiveLimit.

Variable host : Host.

Lemma getTokenLimit_positive (plan : PlanType)
    (blocks : option (list CcusageBlock)) :
  0 < getTokenLimit plan blocks.
Proof.
  destruct blocks as [bs|]; destruct plan; try (cbv; reflexivity).
  rewrite getTokenLimit_custom_max.
  pose proof (maxCount_nonneg (completedTokens bs)).
  destruct (Z.eqb_spec (maxCount (completedTokens bs)) 0); lia.
Qed.

(** X29. The stored limit is positive from start-up on and after every
    iteration of any run, whatever [ccusage] reports; the guard
    [tokenLimit > 0] of the usage percentage therefore always holds. *)
Theorem tokenLimit_positive (monitorOptions : MonitorOptions)
    (initialData : option CcusageData) (inputs : list TickInput) :
  Forall (fun l => 0 < l)
    (main_initialTokenLimit monitorOptions initialData
     :: main_loop host monitorOptions
          (main_initialTokenLimit monitorOptions initialData) inputs).
Proof.
  assert (Hinit : 0 < main_initialTokenLimit monitorOptions initialData).
  { unfold main_initialTokenLimit.
    destruct (PlanType_eqb (plan monitorOptions) custom_max);
      [destruct initialData|]; apply getTokenLimit_positive. }
  constructor; [exact Hinit|].
  eapply Forall_impl; [|apply main_loop_lower_bound].
  cbv beta. intros l Hl. lia.
Qed.

End PositiveLimit.
